(** * Aqua Nexus: derived-state functions of the dashboards, checked against
      the specification

    The development embeds the pure computations of the React components
    (status of a pH value, ordering of the alert feed, the rural water-table
    derivation and averages, the map auto-centre, the great-circle distance)
    and, for the parts of the platform whose program text is not in the
    tree (the Python status classifier and the simulator loop), a model
    written from the specification.

    Numbers.  A JavaScript number is an IEEE-754 double.  Telemetry values
    are modelled by exact rationals [Q]: the thresholds the code compares
    against (6.0, 6.5, 8.5, 9.0, 0.25, ...) are exactly representable, so a
    comparison of a finite double with them agrees with the comparison of
    the rationals; sums and quotients are the exact ones (rounding is not
    modelled).  The haversine distance uses [sin], [cos], [atan2] and is
    modelled over the real numbers. *)

From Stdlib Require Import ZArith QArith Qround Qabs List String Ascii Bool.
From Stdlib Require Import Lia Lqa Permutation Sorted DecimalString Decimal.
From Stdlib Require Import Reals Lra.
Import ListNotations.

(* ================================================================== *)
(** * Part I.  Definitions                                             *)
(* ================================================================== *)

(** ** JavaScript values that occur in the telemetry payloads *)

Module Js.

(** A field of a JSON payload read with [obj.field]: absent
    ([undefined]), [null], or a number. *)
Inductive value : Type :=
| Undefined
| Null
| Num (q : Q).

(** [v == null] (loose equality: true for [null] and [undefined]). *)
Definition eq_null (v : value) : bool :=
  match v with
  | Num _ => false
  | _ => true
  end.

(** [a ?? b] *)
Definition coalesce (a b : value) : value :=
  if eq_null a then b else a.

(** Truthiness of a value: [undefined], [null] and [0] are falsy. *)
Definition truthy (v : value) : bool :=
  match v with
  | Num q => negb (Qeq_bool q 0)
  | _ => false
  end.

(** [a || b] *)
Definition or_else (a b : value) : value :=
  if truthy a then a else b.

(** [x < y] and [x > y] on numbers. *)
Definition ltb (x y : Q) : bool := negb (Qle_bool y x).
Definition gtb (x y : Q) : bool := ltb y x.

(** [Number.prototype.toFixed(2)]: the integer [n] nearest to
    [|x| * 100], the larger one on a tie, printed with two decimals and
    the sign of [x] in front. *)
Definition pad2 (n : Z) : string :=
  let s := NilZero.string_of_uint (N.to_uint (Z.to_N n)) in
  if (n <? 10)%Z then ("0" ++ s)%string else s.

Definition render_fixed2 (negative : bool) (n : Z) : string :=
  ((if negative then "-" else EmptyString)
     ++ NilZero.string_of_uint (N.to_uint (Z.to_N (n / 100)))
     ++ "." ++ pad2 (n mod 100))%string.

Definition toFixed2 (x : Q) : string :=
  render_fixed2 (ltb x 0) (Qfloor (Qabs x * 100 + (1 # 2))).

End Js.

(** ** IndustrialDashboard (StatsPanel.jsx): pH status of a facility *)

Module Industrial.

Record telemetry : Type := {
  ph_level : Js.value
}.

Record facility : Type := {
  id : Z;
  name : string;
  latest_telemetry : option telemetry   (* [None]: null or absent *)
}.

Definition getPhStatus (phLevel : Js.value) : string :=
  match phLevel with
  | Js.Num ph =>
      if Js.ltb ph 6.0 || Js.gtb ph 9.0 then "critical"
      else if Js.ltb ph 6.5 || Js.gtb ph 8.5 then "warning"
      else "normal"
  | _ => "unknown"                      (* phLevel == null *)
  end.

Record violation : Type := {
  parameter : string;
  measured : string;
  limit : string;
  status : string
}.

(** [facility.latest_telemetry?.ph_level ?? null] *)
Definition facility_ph (f : facility) : Js.value :=
  Js.coalesce
    (match latest_telemetry f with
     | Some t => ph_level t
     | None => Js.Undefined
     end)
    Js.Null.

Definition buildViolations (f : facility) : list violation :=
  let phLevel := facility_ph f in
  let status := getPhStatus phLevel in
  [ {| parameter := "pH";
       measured := match phLevel with
                   | Js.Num ph => Js.toFixed2 ph
                   | _ => "N/A"
                   end;
       limit := "6.5-8.5";
       status := status |} ].

(** [violations.filter(v => v.status === 'warning' || v.status === 'critical').length] *)
Definition violationCount (f : facility) : nat :=
  List.length
    (filter (fun v => String.eqb (status v) "warning"
                      || String.eqb (status v) "critical")
            (buildViolations f)).

Definition isCompliant (f : facility) : bool :=
  Nat.eqb (violationCount f) 0.

(** The three pH bands in the words of the specification: [critical]
    outside [6.0, 9.0]; [warning] outside [6.5, 8.5] but inside
    [6.0, 9.0]; [normal] otherwise. *)
Inductive ph_band (ph : Q) : string -> Prop :=
| band_critical : ph < 6.0 \/ 9.0 < ph -> ph_band ph "critical"
| band_warning :
    6.0 <= ph /\ ph <= 9.0 -> ph < 6.5 \/ 8.5 < ph -> ph_band ph "warning"
| band_normal : 6.5 <= ph /\ ph <= 8.5 -> ph_band ph "normal".

End Industrial.

(** ** AlertsFeed (part_003): ordering of the alert feed *)

Module AlertsFeed.

(** [Array.prototype.sort(comparefn)].  The language fixes the result for a
    consistent comparator: the sort is stable, so the result is the one
    permutation of the input that is ordered by [comparefn] and keeps the
    input order among elements that compare equal.  A stable insertion
    sort computes it ([stable_sort_unique] below shows that no other list
    qualifies). *)
Section ArraySort.
Context {A : Type}.
Variable comparefn : A -> A -> Z.

Fixpoint insert (x : A) (l : list A) : list A :=
  match l with
  | [] => [x]
  | y :: l' =>
      if (comparefn x y <=? 0)%Z then x :: y :: l' else y :: insert x l'
  end.

Definition sort (l : list A) : list A := fold_right insert [] l.
End ArraySort.

(** An alert of [/api/alerts].  [timestamp] is the time value, in
    milliseconds, of [new Date(alert.timestamp)]. *)
Record alert : Type := {
  id : Z;
  severity : string;
  title : string;
  message : string;
  timestamp : Z
}.

(** [(a, b) => new Date(b.timestamp) - new Date(a.timestamp)] *)
Definition byTimestampDesc (a b : alert) : Z :=
  (timestamp b - timestamp a)%Z.

(** [(alertsRes.data.alerts || []).sort(...)] *)
Definition sortedAlerts (alerts : option (list alert)) : list alert :=
  sort byTimestampDesc
       (match alerts with
        | Some l => l
        | None => []
        end).

(** The ordering in the words of the specification: most recent timestamp
    first, equal timestamps by severity, critical before warning. *)
Definition severity_rank (s : string) : Z :=
  if String.eqb s "critical" then 0
  else if String.eqb s "warning" then 1
  else 2.

Definition spec_before (a b : alert) : bool :=
  (timestamp b <? timestamp a)%Z
  || ((timestamp a =? timestamp b)%Z
      && (severity_rank (severity a) <=? severity_rank (severity b))%Z).

Fixpoint spec_ordered (l : list alert) : bool :=
  match l with
  | [] => true
  | a :: l' => forallb (spec_before a) l' && spec_ordered l'
  end.

(** What the feed does order by: the timestamp alone. *)
Definition newer_first (a b : alert) : Prop :=
  (timestamp b <= timestamp a)%Z.

Definition at_time (t : Z) (a : alert) : bool := (timestamp a =? t)%Z.

(** Two alerts raised by one reading (a pressure and a pH breach of the
    same node), hence with the same timestamp. *)
Definition warning_alert : alert :=
  {| id := 1; severity := "warning"; title := "Low pressure";
     message := "Pressure below 40 PSI"; timestamp := 1700000000000 |}.

Definition critical_alert : alert :=
  {| id := 2; severity := "critical"; title := "pH breach";
     message := "pH above 9.0"; timestamp := 1700000000000 |}.

End AlertsFeed.

(** ** Sums and means of lists of numbers *)

Module Stats.

(** [values.reduce((sum, value) => sum + value, 0)] *)
Definition reduce_sum (values : list Q) : Q :=
  fold_left Qplus values 0.

(** The sum and the arithmetic mean as the specification means them. *)
Fixpoint Qsum (l : list Q) : Q :=
  match l with
  | [] => 0
  | x :: l' => x + Qsum l'
  end.

Definition count (l : list Q) : Q := inject_Z (Z.of_nat (List.length l)).


(** The numbers among a list of values: [values.filter(v => v != null)]
    on an array whose entries are numbers, [null] or absent. *)
Fixpoint present (values : list Js.value) : list Q :=
  match values with
  | [] => []
  | Js.Num q :: vs => q :: present vs
  | _ :: vs => present vs
  end.

End Stats.

(** ** RuralDashboard (Charts.jsx): water table and station averages *)

Module Rural.

Record telemetry : Type := {
  t_aquifer_depth_m : Js.value;
  t_water_table_m : Js.value
}.

Record station : Type := {
  name : string;
  aquifer_depth_m : Js.value;
  water_table_m : Js.value;
  latest_telemetry : option telemetry     (* [None]: null or absent *)
}.

(** One entry of [depth_trends] / [recharge_trends]: the month, the
    station and the measured [depth] (respectively [recharge]). *)
Record trend : Type := {
  month : string;
  trend_station : string;
  measure : Js.value
}.

Record stats : Type := {
  avg_aquifer_depth_m : Js.value;
  avg_recharge_rate : Js.value;
  stations : option (list station)        (* [None]: absent *)
}.

(** [obj?.field] on a record that may be null. *)
Definition field {T : Type} (o : option T) (f : T -> Js.value) : Js.value :=
  match o with
  | Some r => f r
  | None => Js.Undefined
  end.

(** [selectedStation ? stats.stations?.find(s => s.name === selectedStation)
    : null]; the empty string is falsy. *)
Definition selectedStationData (st : stats) (selectedStation : option string)
  : option station :=
  match selectedStation with
  | None => None
  | Some sel =>
      if String.eqb sel EmptyString then None
      else match stations st with
           | Some l => find (fun s => String.eqb (name s) sel) l
           | None => None
           end
  end.

(** [selectedStationData?.latest_telemetry || null] *)
Definition selectedTelemetry (st : stats) (sel : option string)
  : option telemetry :=
  match selectedStationData st sel with
  | Some s => latest_telemetry s
  | None => None
  end.

Definition selectedAquiferDepth (st : stats) (sel : option string)
  : Js.value :=
  Js.coalesce (field (selectedTelemetry st sel) t_aquifer_depth_m)
    (Js.coalesce (field (selectedStationData st sel) aquifer_depth_m)
       (Js.coalesce (avg_aquifer_depth_m st) (Js.Num 0))).

(** [selectedAquiferDepth ? selectedAquiferDepth * 0.25 : null] *)
Definition quarterOfAquifer (aquifer : Js.value) : Js.value :=
  match aquifer with
  | Js.Num d => if Js.truthy aquifer then Js.Num (d * 0.25) else Js.Null
  | _ => Js.Null
  end.

Definition selectedWaterTableDepth (st : stats) (sel : option string)
  : Js.value :=
  Js.coalesce (field (selectedTelemetry st sel) t_water_table_m)
    (Js.coalesce (field (selectedStationData st sel) water_table_m)
       (quarterOfAquifer (selectedAquiferDepth st sel))).

Definition months : list string :=
  ["Jan"; "Feb"; "Mar"; "Apr"; "May"; "Jun";
   "Jul"; "Aug"; "Sep"; "Oct"; "Nov"; "Dec"]%string.

(** The object built by
    [trendData.filter(d => d.station === sel).reduce((acc, d) =>
    { acc[d.month] = d.depth; return acc }, {})], read at [month]: the
    last entry of that station and month, [undefined] without one. *)
Definition byMonthMap (trendData : list trend) (sel : string)
  (m : string) : Js.value :=
  fold_left
    (fun acc d => if String.eqb (month d) m then measure d else acc)
    (filter (fun d => String.eqb (trend_station d) sel) trendData)
    Js.Undefined.

(** [months.map(month => ...)] with the captured variable [last]: a month
    without a value repeats the last value seen. *)
Fixpoint carryForward (lookup : string -> Js.value) (last : Js.value)
  (ms : list string) : list (string * Js.value) :=
  match ms with
  | [] => []
  | m :: ms' =>
      let v := lookup m in
      let last' := if Js.eq_null v then last else v in
      (m, last') :: carryForward lookup last' ms'
  end.

(** [getStationData().depthData]; [defaultDepth] is
    [selectedWaterTableDepth || 0]. *)
Definition depthData (st : stats) (sel : option string)
  (depthTrendData : list trend) : list (string * Js.value) :=
  match sel with
  | None => []
  | Some s =>
      if String.eqb s EmptyString then []
      else carryForward (byMonthMap depthTrendData s)
             (Js.or_else (selectedWaterTableDepth st sel) (Js.Num 0))
             months
  end.

(** [values.length > 0 ? values.reduce(...) / values.length : null] on
    [values = data.map(d => d.depth).filter(v => v != null)]. *)
Definition avgSelected (data : list (string * Js.value)) : Js.value :=
  let values := Stats.present (map snd data) in
  if (0 <? List.length values)%nat
  then Js.Num (Stats.reduce_sum values / Stats.count values)
  else Js.Null.

Definition avgDepthSelected := avgSelected.
Definition avgRechargeSelected := avgSelected.

(** [selectedStation ? avgDepthSelected : null], the number shown on the
    water-table card ([--] for [null]). *)
Definition displayWaterTableDepth (sel : option string)
  (data : list (string * Js.value)) : Js.value :=
  match sel with
  | None => Js.Null
  | Some s => if String.eqb s EmptyString then Js.Null
              else avgDepthSelected data
  end.

(** The claim of the specification on the derived water table: it is a
    number within [tolerance] of a quarter of the aquifer depth. *)
Definition derived_near_quarter (tolerance : Q) (st : stats)
  (sel : option string) : Prop :=
  exists w d : Q,
    selectedWaterTableDepth st sel = Js.Num w
    /\ selectedAquiferDepth st sel = Js.Num d
    /\ Qabs (w - 0.25 * d) <= tolerance.

(** A station without any reading yet, in a response without an average
    aquifer depth. *)
Definition newStation : station :=
  {| name := "Village Well"; aquifer_depth_m := Js.Undefined;
     water_table_m := Js.Undefined; latest_telemetry := None |}.

Definition statsNoDepth : stats :=
  {| avg_aquifer_depth_m := Js.Null; avg_recharge_rate := Js.Null;
     stations := Some [newStation] |}.

(** A station whose record carries a water table, while its latest
    telemetry only has the aquifer depth. *)
Definition recordedStation : station :=
  {| name := "Farm Borewell"; aquifer_depth_m := Js.Num 80;
     water_table_m := Js.Num 12;
     latest_telemetry :=
       Some {| t_aquifer_depth_m := Js.Num 80;
               t_water_table_m := Js.Undefined |} |}.

Definition statsRecorded : stats :=
  {| avg_aquifer_depth_m := Js.Num 35.2; avg_recharge_rate := Js.Num 12.4;
     stations := Some [recordedStation] |}.

(** A station with an aquifer depth only. *)
Definition plainStation : station :=
  {| name := "Canal Gauge"; aquifer_depth_m := Js.Undefined;
     water_table_m := Js.Undefined;
     latest_telemetry :=
       Some {| t_aquifer_depth_m := Js.Num 42.5;
               t_water_table_m := Js.Null |} |}.

Definition statsPlain : stats :=
  {| avg_aquifer_depth_m := Js.Num 35.2; avg_recharge_rate := Js.Num 12.4;
     stations := Some [plainStation] |}.

End Rural.

(** ** MapView (Map.jsx): auto-centre of the map *)

Module MapView.

Record node : Type := {
  id : Z;
  name : string;
  context_mode : string;
  latitude : Q;
  longitude : Q
}.

(** The component state set by [setCenter] and [setZoom]. *)
Record view : Type := {
  center : Q * Q;
  zoom : Z
}.

Definition initialView : view :=
  {| center := (28.5, 77.1); zoom := 11 |}.

Definition filteredNodes (nodes : list node) (contextFilter : string)
  : list node :=
  if String.eqb contextFilter "all" then nodes
  else filter (fun n => String.eqb (context_mode n) contextFilter) nodes.

Definition avgLat (filtered : list node) : Q :=
  fold_left (fun sum n => sum + latitude n) filtered 0
  / inject_Z (Z.of_nat (List.length filtered)).

Definition avgLng (filtered : list node) : Q :=
  fold_left (fun sum n => sum + longitude n) filtered 0
  / inject_Z (Z.of_nat (List.length filtered)).

(** The body of the auto-centre effect. *)
Definition autoCenter (filtered : list node) (v : view) : view :=
  if (0 <? List.length filtered)%nat
  then {| center := (avgLat filtered, avgLng filtered);
          zoom := if (List.length filtered =? 1)%nat then 13 else 11 |}
  else v.

(** The effect runs after the first render and after a render in which
    [contextFilter] or [filteredNodes.length] differs from the previous
    render. *)
Definition effectDue (previous : option (string * nat))
  (contextFilter : string) (filtered : list node) : bool :=
  match previous with
  | None => true
  | Some (f, n) =>
      negb (String.eqb f contextFilter && (n =? List.length filtered)%nat)
  end.

Definition render (previous : option (string * nat)) (nodes : list node)
  (contextFilter : string) (v : view) : view :=
  let filtered := filteredNodes nodes contextFilter in
  if effectDue previous contextFilter filtered
  then autoCenter filtered v
  else v.

(** Three nodes of the Delhi region, two of them urban. *)
Definition sampleNodes : list node :=
  [ {| id := 1; name := "Downtown"; context_mode := "urban";
       latitude := 28.6; longitude := 77.2 |};
    {| id := 2; name := "Residential"; context_mode := "urban";
       latitude := 28.4; longitude := 77.0 |};
    {| id := 3; name := "Factory"; context_mode := "industrial";
       latitude := 28.7; longitude := 77.3 |} ].

End MapView.

(** ** NearbyReports (mobile app): great-circle distance *)

Module NearbyReports.
Local Open Scope R_scope.

(** [Math.atan2(y, x)], the angle of the point [(x, y)]. *)
Definition atan2 (y x : R) : R :=
  if Rlt_dec 0 x then atan (y / x)
  else if Rlt_dec x 0
       then (if Rle_dec 0 y then atan (y / x) + PI else atan (y / x) - PI)
       else if Rlt_dec 0 y then PI / 2
            else if Rlt_dec y 0 then - PI / 2
                 else 0.

(** [x.toFixed(2)] on a real below 10^21 (every distance is, see
    [distanceKm_bounds]): the nearest multiple of 0.01, the larger one on
    a tie. *)
Definition toFixed2 (x : R) : string :=
  Js.render_fixed2 (if Rlt_dec x 0 then true else false)
                   (Int_part (Rabs x * 100 + / 2)).

(** The number [R * c] that [calculateDistance] formats. *)
Definition distanceKm (lat1 lng1 lat2 lng2 : R) : R :=
  let radius := 6371 in
  let dLat := ((lat2 - lat1) * PI) / 180 in
  let dLng := ((lng2 - lng1) * PI) / 180 in
  let a :=
    sin (dLat / 2) * sin (dLat / 2)
    + cos ((lat1 * PI) / 180) * cos ((lat2 * PI) / 180)
      * sin (dLng / 2) * sin (dLng / 2) in
  let c := 2 * atan2 (sqrt a) (sqrt (1 - a)) in
  radius * c.

Definition calculateDistance (lat1 lng1 lat2 lng2 : R) : string :=
  toFixed2 (distanceKm lat1 lng1 lat2 lng2).

End NearbyReports.

(** ** StatusClassifier (backend, not in the tree) *)

Module Classifier.

(** Modelled from the spec: the node categories of section 3; the backend
    that declares them is not in the tree. *)
Inductive category : Type := Urban | Industrial | Rural.

(** Modelled from the spec: the status values of section 3. *)
Inductive StatusValue : Type := normal | warning | critical | offline.

(** Modelled from the spec: a telemetry reading of section 3 as it
    arrives; every field may be missing. *)
Record reading : Type := {
  flow_rate : Js.value;
  pressure : Js.value;
  ph_level : Js.value;
  temperature : Js.value;
  turbidity : Js.value;
  aquifer_depth_m : Js.value;
  water_table_m : Js.value;
  recharge_rate : Js.value
}.

(** Modelled from the spec: a field is present when it is neither [null]
    nor absent. *)
Definition has (v : Js.value) : bool := negb (Js.eq_null v).

(** Modelled from the spec: the fields that a reading of a category must
    carry (section 3: urban and industrial readings have flow_rate,
    pressure, ph_level, temperature and turbidity; rural readings have
    aquifer_depth_m, water_table_m and recharge_rate).  The classifier
    itself is part of the Python backend, which is not in the tree. *)
Definition well_formed (c : category) (r : reading) : bool :=
  match c with
  | Urban | Industrial =>
      has (flow_rate r) && has (pressure r) && has (ph_level r)
      && has (temperature r) && has (turbidity r)
  | Rural =>
      has (aquifer_depth_m r) && has (water_table_m r)
      && has (recharge_rate r)
  end.

(** Modelled from the spec: a threshold test on a field holds when the
    field is a number that passes it. *)
Definition holds (v : Js.value) (test : Q -> bool) : bool :=
  match v with
  | Js.Num q => test q
  | _ => false
  end.

Section Thresholds.
(** The drought threshold of rural nodes; the specification leaves its
    value open. *)
Variable drought_threshold_m : Q.

(** Modelled from the spec: the hard-critical breaches of section 4.4,
    rule 2: pressure < 30 (urban), pH outside [6.0, 9.0] (any context with
    a pH), aquifer or water-table depth beyond the drought threshold
    (rural). *)
Definition hard_breach (c : category) (r : reading) : bool :=
  holds (ph_level r) (fun ph => Js.ltb ph 6.0 || Js.gtb ph 9.0)
  || match c with
     | Urban => holds (pressure r) (fun p => Js.ltb p 30)
     | Industrial => false
     | Rural =>
         holds (aquifer_depth_m r) (fun d => Js.gtb d drought_threshold_m)
         || holds (water_table_m r) (fun d => Js.gtb d drought_threshold_m)
     end.

(** Modelled from the spec: the soft breaches of section 4.4, rule 3:
    pressure within [30, 40) (urban), pH outside [6.5, 8.5] but inside
    [6.0, 9.0]. *)
Definition soft_breach (c : category) (r : reading) : bool :=
  holds (ph_level r) (fun ph => Js.ltb ph 6.5 || Js.gtb ph 8.5)
  || match c with
     | Urban =>
         holds (pressure r) (fun p => negb (Js.ltb p 30) && Js.ltb p 40)
     | _ => false
     end.

(** Modelled from the spec: [classify(category, reading)] of section 4.4,
    the rules in their order of precedence, first match wins: no reading
    (or, by section 7, a reading with a required field missing) is
    [offline]; a hard breach is [critical]; a soft breach is [warning];
    otherwise [normal]. *)
Definition classify (c : category) (latest : option reading)
  : StatusValue :=
  match latest with
  | None => offline
  | Some r =>
      if negb (well_formed c r) then offline
      else if hard_breach c r then critical
      else if soft_breach c r then warning
      else normal
  end.

End Thresholds.

(** Scenario A of the specification with the other fields of the sample
    request of the backend guide. *)
Definition scenarioA : reading :=
  {| flow_rate := Js.Num 45.5; pressure := Js.Num 25;
     ph_level := Js.Num 7.2; temperature := Js.Num 22.5;
     turbidity := Js.Num 3.2; aquifer_depth_m := Js.Undefined;
     water_table_m := Js.Undefined; recharge_rate := Js.Undefined |}.

End Classifier.

(** ** SimulationScheduler (simulate.py, not in the tree) *)

Module Scheduler.

(** Modelled from the spec: the options of the command line of section 6
    ([--interval], [--cycles], [--url] in the simulator guide); [None]
    where the option is not given.  simulate.py is not in the tree. *)
Record options : Type := {
  opt_interval : option Z;
  opt_cycles : option nat;
  opt_url : option string
}.

(** Modelled from the spec: the configuration of a run (section 4.3:
    interval in seconds, cycles or infinite). *)
Record config : Type := {
  interval_seconds : Z;
  cycles : option nat;          (* [None]: unbounded *)
  endpoint : string
}.

(** Modelled from the spec: an option that is not given takes its
    default. *)
Definition or_default {T : Type} (o : option T) (d : T) : T :=
  match o with
  | Some x => x
  | None => d
  end.

(** Modelled from the spec: the configuration of a scheduler run
    (section 6: target interval in seconds, default 2; cycle count,
    default unbounded; destination endpoint).  The command line of
    simulate.py is not in the tree; the default endpoint is left to the
    caller. *)
Definition configure (default_endpoint : string) (o : options) : config :=
  {| interval_seconds := or_default (opt_interval o) 2%Z;
     cycles := opt_cycles o;
     endpoint := or_default (opt_url o) default_endpoint |}.

(** Modelled from the spec: an invocation without explicit
    configuration. *)
Definition no_options : options :=
  {| opt_interval := None; opt_cycles := None; opt_url := None |}.

(** Modelled from the spec: the states of the scheduler (section 4.3:
    Idle, Running, then Stopped or Completed). *)
Inductive phase : Type := Idle | Running | Stopped | Completed.

Section Run.
Context {node reading : Type}.
(** The generator: the reading of a node at a tick. *)
Variable generate : node -> nat -> reading.
(** The ingestion sink: whether the submission of a reading at a tick
    succeeds (a rejection or a timeout is a failure). *)
Variable submit : nat -> node -> reading -> bool.
(** The external stop signal, looked at before each tick. *)
Variable stop : nat -> bool.

(** Modelled from the spec: the summary of one cycle (submitted count,
    failed count), with the submissions it made and the sleep after it. *)
Record cycle : Type := {
  cycle_no : nat;
  attempts : list (node * reading);
  submitted_count : nat;
  failed_count : nat;
  sleep_seconds : Z
}.

(** Modelled from the spec: the success or failure that the sink returns
    for one submission. *)
Definition outcome (t : nat) (a : node * reading) : bool :=
  submit t (fst a) (snd a).

(** Modelled from the spec: one tick of section 4.3: one reading is
    generated per node, every reading is submitted once, the outcomes are
    collected into the submitted and failed counts; nothing is retried
    and nothing is kept for a later tick.  Then the loop sleeps for the
    configured interval. *)
Definition run_tick (cfg : config) (nodes : list node) (t : nat) : cycle :=
  let readings := map (fun n => (n, generate n t)) nodes in
  {| cycle_no := t;
     attempts := readings;
     submitted_count := List.length (filter (outcome t) readings);
     failed_count :=
       List.length (filter (fun a => negb (outcome t a)) readings);
     sleep_seconds := interval_seconds cfg |}.

(** Modelled from the spec: the loop of section 4.3, observed for [fuel]
    steps from tick [t] with [remaining] cycles to go ([None]: no bound).
    The stop signal ends the run at a tick boundary; a bounded run
    completes when its cycles are used up; an unbounded run is still
    [Running] when the observation ends. *)
Fixpoint loop (cfg : config) (nodes : list node) (remaining : option nat)
  (t fuel : nat) : list cycle * phase :=
  match fuel with
  | O =>
      match remaining with
      | Some O => ([], Completed)
      | _ => ([], Running)
      end
  | S fuel' =>
      match remaining with
      | Some O => ([], Completed)
      | _ =>
          if stop t then ([], Stopped)
          else
            let (rest, p) :=
              loop cfg nodes (option_map Nat.pred remaining) (S t) fuel' in
            (run_tick cfg nodes t :: rest, p)
      end
  end.

(** Modelled from the spec: [run(nodes, interval_seconds, cycles)] from
    the first tick. *)
Definition run (cfg : config) (nodes : list node) (fuel : nat)
  : list cycle * phase :=
  loop cfg nodes (cycles cfg) 0 fuel.

End Run.

End Scheduler.

(** ** RuralDashboard (Charts.jsx): the trend data behind the station
       charts *)

Module RuralTrends.
Import Rural.

(** [v || d] for a number [d]: [v] when it is a number other than 0. *)
Definition truthy_or (v : Js.value) (d : Q) : Q :=
  match v with
  | Js.Num q => if Qeq_bool q 0 then d else q
  | _ => d
  end.

(** [parseFloat(x.toFixed(1))]: [toFixed(1)] prints the nearest multiple
    of 0.1, the one further from zero on a tie (for [|x|] below 10^21,
    where it prints digits), and [parseFloat] reads it back as the double
    nearest to that decimal; the model keeps the decimal itself. *)
Definition round1 (x : Q) : Q :=
  let tenths := inject_Z (Qfloor (Qabs x * 10 + (1 # 2))) / 10 in
  if Js.ltb x 0 then - tenths else tenths.

(** [stats.stations?.slice(0, 6) || []] *)
Definition topStations (st : stats) : list station :=
  match stations st with
  | Some l => firstn 6 l
  | None => []
  end.

(** [station.aquifer_depth_m || stats.avg_aquifer_depth_m || 80] *)
Definition baseDepth (st : stats) (s : station) : Q :=
  truthy_or (aquifer_depth_m s) (truthy_or (avg_aquifer_depth_m st) 80).

(** The flat per-station depth trend generated when the response has no
    [depth_trends]: [months.forEach(month => topStations.forEach(station
    => depthTrendData.push({ month, station: station.name, depth })))]. *)
Definition fallbackDepthTrend (st : stats) : list trend :=
  flat_map
    (fun m =>
       map (fun s => {| month := m; trend_station := name s;
                        measure := Js.Num (round1 (baseDepth st s)) |})
           (topStations st))
    months.

(** [stats.depth_trends && stats.depth_trends.length > 0] selects the
    trend of the response, otherwise the generated one. *)
Definition depthTrendData (st : stats) (depth_trends : option (list trend))
  : list trend :=
  match depth_trends with
  | Some (d :: l) => d :: l
  | _ => fallbackDepthTrend st
  end.

(** The last row of a station and month in a trend, read from the end. *)
Definition lastEntry (trendData : list trend) (sel m : string)
  : option trend :=
  find (fun d => String.eqb (trend_station d) sel && String.eqb (month d) m)
       (List.rev trendData).

(** A response with one station and a trend of two months for it. *)
Definition sparseTrend : list trend :=
  [ {| month := "Mar"; trend_station := "Canal Gauge";
       measure := Js.Num 40 |};
    {| month := "Jun"; trend_station := "Canal Gauge";
       measure := Js.Num 50 |};
    {| month := "Mar"; trend_station := "Village Well";
       measure := Js.Num 7 |} ].

(** A trend with the readings 40 (January) and 50 (February) of one
    station and nothing else. *)
Definition janFebTrend : list trend :=
  [ {| month := "Jan"; trend_station := "Canal Gauge";
       measure := Js.Num 40 |};
    {| month := "Feb"; trend_station := "Canal Gauge";
       measure := Js.Num 50 |} ].

End RuralTrends.

(** ** AlertsFeed (part_003): the citizen reports and the all-clear *)

Module ReportsFeed.
Import AlertsFeed.

(** A citizen report of [/api/reports]; [created_at] is the time value
    of [new Date(report.created_at)]. *)
Record report : Type := {
  report_id : Z;
  description : string;
  category : string;
  status : string;
  created_at : Z
}.

(** [(a, b) => new Date(b.created_at) - new Date(a.created_at)] *)
Definition byCreatedDesc (a b : report) : Z :=
  (created_at b - created_at a)%Z.

(** [(reportsRes.data || []).sort(...)] *)
Definition sortedReports (reports : option (list report)) : list report :=
  sort byCreatedDesc
       (match reports with
        | Some l => l
        | None => []
        end).


End ReportsFeed.

(** ** App (admin dashboard): the selected node across a refresh *)

Module AdminApp.
Import MapView.

(** The two pieces of state that [fetchData] and [handleNodeClick]
    write: [nodes] and [selectedNode]. *)
Record state : Type := {
  nodes : list node;
  selectedNode : option node
}.

(** [useState([])] and [useState(null)]. *)
Definition initial : state :=
  {| nodes := []; selectedNode := None |}.

(** The [fetchData] created by a render whose [selectedNode] is
    [captured], run on the answer [data] of [/api/nodes/with-telemetry]:
    [setNodes(nodesRes.data); if (selectedNode) { const updatedNode =
    nodesRes.data.find(n => n.id === selectedNode.id); if (updatedNode)
    setSelectedNode(updatedNode) }].  The [selectedNode] read here is the
    constant of that render, not the current state [s]. *)
Definition fetchData (captured : option node) (data : list node)
  (s : state) : state :=
  {| nodes := data;
     selectedNode :=
       match captured with
       | Some sel =>
           match find (fun n => (id n =? id sel)%Z) data with
           | Some updatedNode => Some updatedNode
           | None => selectedNode s
           end
       | None => selectedNode s
       end |}.

(** What happens to the application: a click on a node of the map, the
    answer to a refresh, or a refresh whose request fails (the [catch]
    branch sets nothing). *)
Inductive event : Type :=
| NodeClick (n : node)
| Response (data : list node)
| RequestFailed.

(** [useEffect(() => { fetchData(); setInterval(fetchData, 10000); ... },
    [])] runs once, after the first render: the first call and every tick
    of the interval run the [fetchData] of that render, in which
    [selectedNode] is the initial [null]. *)
Definition handle (s : state) (e : event) : state :=
  match e with
  | NodeClick n => {| nodes := nodes s; selectedNode := Some n |}
  | Response data => fetchData (selectedNode initial) data s
  | RequestFailed => s
  end.

Definition run (events : list event) : state :=
  fold_left handle events initial.

(** The node of the last click and the answer of the last successful
    refresh among the events. *)
Definition lastClick (events : list event) : option node :=
  fold_left (fun acc e => match e with NodeClick n => Some n | _ => acc end)
            events None.

Definition lastResponse (events : list event) : list node :=
  fold_left (fun acc e => match e with Response data => data | _ => acc end)
            events [].

(** A node as the first answer carries it, and the same node (same
    identifier) as a later answer carries it. *)
Definition downtown : node :=
  {| id := 1; name := "Downtown"; context_mode := "urban";
     latitude := 28.6; longitude := 77.2 |}.

Definition downtownMoved : node :=
  {| id := 1; name := "Downtown"; context_mode := "urban";
     latitude := 28.61; longitude := 77.21 |}.

End AdminApp.

(** ** UrbanDashboard: the district chart *)

Module UrbanDashboard.

(** One value of [stats.districts]. *)
Record district : Type := {
  nodes : Js.value;
  flow : Js.value
}.

(** [Math.round(x)]: the nearest integer, the larger one on a tie. *)
Definition Math_round (x : Q) : Z := Qfloor (x + (1 # 2)).

Record bar : Type := {
  bar_name : string;
  bar_flow : Z;
  bar_demand : Z
}.

(** [data.flow || 0] *)
Definition flowOrZero (data : district) : Q :=
  RuralTrends.truthy_or (flow data) 0.

(** [Object.entries(stats.districts || {}).map(([name, data]) => ({ name,
    flow: Math.round(data.flow || 0), demand: Math.round((data.flow || 0)
    * 0.85) }))]; [districts] is the list of entries of the object. *)
Definition districtData (districts : option (list (string * district)))
  : list bar :=
  map (fun entry =>
         {| bar_name := fst entry;
            bar_flow := Math_round (flowOrZero (snd entry));
            bar_demand := Math_round (flowOrZero (snd entry) * 0.85) |})
      (match districts with
       | Some entries => entries
       | None => []
       end).

(** [getNodeData()]: the rows of the flow chart (and, with
    [avg_pressure], of the pressure chart) of the selected node; the
    trend rows are [{ month, node, flow }], the default is
    [stats.avg_flow_rate || 0]. *)
Definition nodeData (average : Js.value) (selectedNode : option string)
  (trendData : list Rural.trend) : list (string * Js.value) :=
  match selectedNode with
  | None => []
  | Some n =>
      if String.eqb n EmptyString then []
      else Rural.carryForward (Rural.byMonthMap trendData n)
             (Js.Num (RuralTrends.truthy_or average 0))
             Rural.months
  end.

Definition flowData := nodeData.
Definition pressureData := nodeData.

End UrbanDashboard.

(** ** NearbyReports and MyReports: labels and colours of a report *)

Module ReportLabels.

(** The value read by [table[key]] from an object literal whose values
    are strings: the value of an own property; a property inherited from
    [Object.prototype] (a function, the prototype itself for
    [__proto__]); or [undefined]. *)
Inductive property : Type :=
| Own (v : string)
| Inherited (key : string)
| Absent.

Definition object_prototype_keys : list string :=
  [ "constructor"; "hasOwnProperty"; "isPrototypeOf";
    "propertyIsEnumerable"; "toLocaleString"; "toString"; "valueOf";
    "__proto__"; "__defineGetter__"; "__defineSetter__";
    "__lookupGetter__"; "__lookupSetter__" ]%string.

Fixpoint own (table : list (string * string)) (key : string)
  : option string :=
  match table with
  | [] => None
  | (k, v) :: rest => if String.eqb k key then Some v else own rest key
  end.

Definition get (table : list (string * string)) (key : string) : property :=
  match own table key with
  | Some v => Own v
  | None =>
      if existsb (String.eqb key) object_prototype_keys
      then Inherited key
      else Absent
  end.

(** [table[key] || fallback]: a non-empty string and an inherited object
    are truthy. *)
Definition get_or (table : list (string * string)) (key : string)
  (fallback : property) : property :=
  match get table key with
  | Own v => if String.eqb v EmptyString then fallback else Own v
  | Inherited k => Inherited k
  | Absent => fallback
  end.

Definition labels : list (string * string) :=
  [ ("leak", "Leak"); ("pollution", "Pollution");
    ("drought", "Drought"); ("other", "Other") ]%string.

Definition colors : list (string * string) :=
  [ ("pending", "bg-yellow-50 border-yellow-300 text-yellow-700");
    ("investigating", "bg-blue-50 border-blue-300 text-blue-700");
    ("resolved", "bg-green-50 border-green-300 text-green-700");
    ("rejected", "bg-red-50 border-red-300 text-red-700") ]%string.

(** [labels[category] || 'Report'] *)
Definition getCategoryLabel (category : string) : property :=
  get_or labels category (Own "Report").

(** [colors[status] || colors.pending] *)
Definition getStatusColor (status : string) : property :=
  get_or colors status (get colors "pending").

End ReportLabels.

(** ** RuralDashboard (Charts.jsx): the chart data of a render *)

Module StationData.
Import Rural RuralTrends.

(** The series of a chart: one row [{ month, depth }] (or
    [{ month, recharge }]) per month. *)
Definition series : Type := list (string * Js.value).

(** The flat recharge trend generated with the depth trend:
    [baseRecharge = stats.avg_recharge_rate || 10], rounded to one
    decimal, for every month and each of the first six stations. *)
Definition fallbackRechargeTrend (st : stats) : list trend :=
  flat_map
    (fun m =>
       map (fun s =>
              {| month := m; trend_station := name s;
                 measure :=
                   Js.Num (round1 (truthy_or (avg_recharge_rate st) 10)) |})
           (topStations st))
    months.

(** [rechargeTrendData]: [stats.recharge_trends] as it is ([None] when
    the response has none) if the response has depth trends, the
    generated trend otherwise. *)
Definition rechargeTrendData (st : stats)
  (depth_trends recharge_trends : option (list trend))
  : option (list trend) :=
  match depth_trends with
  | Some (_ :: _) => recharge_trends
  | _ => Some (fallbackRechargeTrend st)
  end.

(** [depthByMonth] and [rechargeByMonth]: for every month the object
    [{ month, [station]: value, ... }], kept as the month and the writes
    [monthData[d.station] = d.depth] in their order (a later write to a
    station replaces an earlier one). *)
Definition byMonth (trendData : list trend)
  : list (string * list (string * Js.value)) :=
  map (fun m =>
         (m, map (fun d => (trend_station d, measure d))
                 (filter (fun d => String.eqb (month d) m) trendData)))
      months.

(** [getStationData()], the pair [{ depthData, rechargeData }]. *)
Definition getStationData (st : stats) (sel : option string)
  (depthTrend rechargeTrend : list trend) : series * series :=
  match sel with
  | None => ([], [])
  | Some s =>
      if String.eqb s EmptyString then ([], [])
      else (depthData st sel depthTrend,
            carryForward (byMonthMap rechargeTrend s)
              (Js.Num (truthy_or (avg_recharge_rate st) 0))
              months)
  end.

(** The chart data computed by one render of the dashboard, in the order
    of the program: the trend data, the two groupings by month, then
    [getStationData].  [None] stands for the TypeError that
    [rechargeTrendData.filter] raises in [rechargeByMonth] when
    [rechargeTrendData] is [undefined]. *)
Definition chartData (st : stats) (sel : option string)
  (depth_trends recharge_trends : option (list trend))
  : option (list (string * list (string * Js.value))
            * list (string * list (string * Js.value))
            * (series * series)) :=
  match rechargeTrendData st depth_trends recharge_trends with
  | None => None
  | Some rechargeTrend =>
      Some (byMonth (depthTrendData st depth_trends),
            byMonth rechargeTrend,
            getStationData st sel (depthTrendData st depth_trends)
              rechargeTrend)
  end.

(** [!!selectedStation]: a station is selected. *)
Definition selected (sel : option string) : bool :=
  match sel with
  | None => false
  | Some s => negb (String.eqb s EmptyString)
  end.

End StationData.

(** ** RuralDashboard (Charts.jsx): what the station averages run over *)

Module RuralAverages.
Import Rural.

(** The readings of a station before the months are filled:
    [depthByMonthMap[month]] for every month, [undefined] for a month
    without a trend row. *)
Definition monthlyReadings (trendData : list trend) (s : string)
  : list (string * Js.value) :=
  map (fun m => (m, byMonthMap trendData s m)) months.

(** Filling by the last value seen, said row by row: [rows] has a row
    for every month of [ms], at the same position; a month with a reading
    shows it; a month without one shows what the row before it shows, and
    [default] if it is the first. *)
Definition carried_forward (lookup : string -> Js.value)
  (default : Js.value) (ms : list string)
  (rows : list (string * Js.value)) : Prop :=
  forall (i : nat) (m : string),
    nth_error ms i = Some m ->
    exists v : Js.value,
      nth_error rows i = Some (m, v)
      /\ (Js.eq_null (lookup m) = false -> v = lookup m)
      /\ (Js.eq_null (lookup m) = true ->
          match i with
          | O => v = default
          | S j => exists m', nth_error rows j = Some (m', v)
          end).

End RuralAverages.

(* ================================================================== *)
(** * Part II.  Properties                                             *)
(* ================================================================== *)

(** Linear arithmetic over the rationals ([lra] alone is the one of the
    reals, loaded last). *)
Ltac qlra := Lqa.lra.

(** ** C1, C2: the pH status *)

Section IndustrialFacts.
Import Industrial.
Local Open Scope Q_scope.

Lemma ltb_lt (x y : Q) : Js.ltb x y = true <-> x < y.
Proof.
  unfold Js.ltb. rewrite negb_true_iff.
  split; intro H.
  - apply Qnot_le_lt. intro Hle. apply Qle_bool_iff in Hle. congruence.
  - destruct (Qle_bool y x) eqn:E; [|reflexivity].
    apply Qle_bool_iff in E. exfalso. apply (Qlt_not_le _ _ H E).
Qed.

Lemma ltb_ge (x y : Q) : Js.ltb x y = false <-> y <= x.
Proof.
  unfold Js.ltb. rewrite negb_false_iff. apply Qle_bool_iff.
Qed.

Lemma gtb_gt (x y : Q) : Js.gtb x y = true <-> y < x.
Proof. apply ltb_lt. Qed.

Lemma gtb_le (x y : Q) : Js.gtb x y = false <-> x <= y.
Proof. apply ltb_ge. Qed.

(** Turn every comparison of the code that sits in the context into the
    order fact it decides. *)
Ltac cmp_facts :=
  repeat match goal with
         | H : Js.ltb _ _ = true |- _ => apply ltb_lt in H
         | H : Js.ltb _ _ = false |- _ => apply ltb_ge in H
         | H : Js.gtb _ _ = true |- _ => apply gtb_gt in H
         | H : Js.gtb _ _ = false |- _ => apply gtb_le in H
         end.

Lemma getPhStatus_in_band (ph : Q) : ph_band ph (getPhStatus (Js.Num ph)).
Proof.
  unfold getPhStatus.
  destruct (Js.ltb ph 6.0) eqn:L6; destruct (Js.gtb ph 9.0) eqn:G9;
    cbn [orb]; cmp_facts;
    try (apply band_critical; qlra).
  destruct (Js.ltb ph 6.5) eqn:L65; destruct (Js.gtb ph 8.5) eqn:G85;
    cbn [orb]; cmp_facts;
    try (apply band_warning; qlra).
  apply band_normal; qlra.
Qed.

Lemma ph_band_functional (ph : Q) (s1 s2 : string) :
  ph_band ph s1 -> ph_band ph s2 -> s1 = s2.
Proof.
  intros H1 H2; destruct H1; destruct H2; try reflexivity; exfalso; qlra.
Qed.

(** C1.  For a reading that has a pH value, [getPhStatus] answers
    [critical] exactly when the pH is outside [6.0, 9.0], [warning] exactly
    when it is outside [6.5, 8.5] but inside [6.0, 9.0], and [normal]
    exactly in the remaining case; a pH of 11.0 is [critical]. *)
Theorem getPhStatus_bands :
  (forall (ph : Q) (s : string),
      getPhStatus (Js.Num ph) = s <-> ph_band ph s)
  /\ getPhStatus (Js.Num 11.0) = "critical"%string.
Proof.
  split.
  - intros ph s; split.
    + intros <-. apply getPhStatus_in_band.
    + intros Hs. apply (ph_band_functional ph _ _ (getPhStatus_in_band ph) Hs).
  - reflexivity.
Qed.

(** The band limits themselves: 6.0 and 9.0 are still [warning], 6.5 and
    8.5 are [normal]; the contamination spike of an industrial facility is
    reported as a critical violation. *)
Example getPhStatus_limits :
  map getPhStatus [Js.Num 5.9; Js.Num 6.0; Js.Num 6.4; Js.Num 6.5;
                   Js.Num 8.5; Js.Num 8.6; Js.Num 9.0; Js.Num 9.1]
  = ["critical"; "warning"; "warning"; "normal";
     "normal"; "warning"; "warning"; "critical"]%string
  /\ (let plant :=
        {| id := 4; name := "Chemical Plant";
           latest_telemetry := Some {| ph_level := Js.Num 11.0 |} |} in
      buildViolations plant
      = [ {| parameter := "pH"; measured := "11.00";
             limit := "6.5-8.5"; status := "critical" |} ]
      /\ isCompliant plant = false).
Proof. repeat split; reflexivity. Qed.

(** C2 as stated fails: a missing pH is answered with [unknown], which is
    not the [offline] status. *)
Lemma getPhStatus_null_is_not_offline :
  getPhStatus Js.Null = "unknown"%string
  /\ getPhStatus Js.Null <> "offline"%string.
Proof. split; [reflexivity | discriminate]. Qed.

(** C2, amended.  A missing pH ([null] or absent) never makes
    [getPhStatus] fail: the answer is [unknown], and no input is answered
    with [offline].  A facility without telemetry, or whose telemetry has
    no pH, gets the single row pH / N/A / 6.5-8.5 / unknown, which is not
    counted as a violation: the facility is shown as compliant. *)
Theorem getPhStatus_missing_is_unknown :
  getPhStatus Js.Null = "unknown"%string
  /\ getPhStatus Js.Undefined = "unknown"%string
  /\ (forall v : Js.value, getPhStatus v <> "offline"%string)
  /\ (forall (i : Z) (n : string) (t : option telemetry),
        let f := {| id := i; name := n; latest_telemetry := t |} in
        Js.eq_null (facility_ph f) = true ->
        buildViolations f
        = [ {| parameter := "pH"; measured := "N/A";
               limit := "6.5-8.5"; status := "unknown" |} ]
        /\ isCompliant f = true).
Proof.
  repeat split; try reflexivity.
  - intros v. unfold getPhStatus. destruct v; try discriminate.
    destruct (_ || _); [discriminate|]. destruct (_ || _); discriminate.
  - unfold buildViolations.
    destruct (facility_ph _); [reflexivity | reflexivity | discriminate].
  - unfold isCompliant, violationCount, buildViolations.
    destruct (facility_ph _); [reflexivity | reflexivity | discriminate].
Qed.

End IndustrialFacts.

(** ** C3: the alert feed is ordered by time alone, and stably *)

Section ArraySortFacts.
Import AlertsFeed.
Local Open Scope Z_scope.

Context {A : Type}.
Variable key : A -> Z.
Variable comparefn : A -> A -> Z.
(** The comparator orders by decreasing key. *)
Hypothesis comparefn_key :
  forall x y, (comparefn x y <=? 0) = (key y <=? key x).

Let later_first (a b : A) : Prop := key b <= key a.
Let keyed (t : Z) (a : A) : bool := key a =? t.

Lemma insert_perm (x : A) (l : list A) :
  Permutation (insert comparefn x l) (x :: l).
Proof.
  induction l as [|y l IH]; cbn [insert].
  - apply Permutation_refl.
  - destruct (comparefn x y <=? 0).
    + apply Permutation_refl.
    + eapply perm_trans; [apply perm_skip, IH | apply perm_swap].
Qed.

Lemma sort_perm (l : list A) : Permutation (sort comparefn l) l.
Proof.
  induction l as [|x l IH]; cbn [sort fold_right].
  - constructor.
  - eapply perm_trans; [apply insert_perm | apply perm_skip, IH].
Qed.

Lemma insert_Forall (P : A -> Prop) (x : A) (l : list A) :
  P x -> Forall P l -> Forall P (insert comparefn x l).
Proof.
  intros Hx Hl.
  eapply Permutation_Forall; [apply Permutation_sym, insert_perm|].
  constructor; assumption.
Qed.

Lemma insert_sorted (x : A) (l : list A) :
  StronglySorted later_first l ->
  StronglySorted later_first (insert comparefn x l).
Proof.
  induction 1 as [|y l Hs IH Hy]; cbn [insert].
  - repeat constructor.
  - destruct (comparefn x y <=? 0) eqn:E; rewrite comparefn_key in E.
    + apply Z.leb_le in E.
      constructor; [constructor; assumption|].
      constructor; [exact E|].
      eapply Forall_impl; [|exact Hy].
      intros z Hz. unfold later_first in *. lia.
    + apply Z.leb_gt in E.
      constructor; [exact IH|].
      apply insert_Forall; [unfold later_first; lia | exact Hy].
Qed.

Lemma sort_sorted (l : list A) :
  StronglySorted later_first (sort comparefn l).
Proof.
  induction l as [|x l IH]; cbn [sort fold_right].
  - constructor.
  - apply insert_sorted, IH.
Qed.

Lemma filter_insert (t : Z) (x : A) (l : list A) :
  filter (keyed t) (insert comparefn x l) = filter (keyed t) (x :: l).
Proof.
  induction l as [|y l IH]; cbn [insert]; [reflexivity|].
  destruct (comparefn x y <=? 0) eqn:E; [reflexivity|].
  rewrite comparefn_key in E. apply Z.leb_gt in E.
  cbn [filter] in *. rewrite IH. unfold keyed.
  destruct (key y =? t) eqn:Ey; destruct (key x =? t) eqn:Ex;
    try reflexivity.
  apply Z.eqb_eq in Ey, Ex. lia.
Qed.

Lemma sort_stable (t : Z) (l : list A) :
  filter (keyed t) (sort comparefn l) = filter (keyed t) l.
Proof.
  induction l as [|x l IH]; cbn [sort fold_right]; [reflexivity|].
  rewrite filter_insert. cbn [filter]. fold (sort comparefn l).
  rewrite IH. reflexivity.
Qed.

(** Two lists ordered by decreasing key that agree on every class of equal
    keys are the same list: the stable sorted permutation is unique. *)
Lemma stable_sorted_unique (l1 l2 : list A) :
  StronglySorted later_first l1 ->
  StronglySorted later_first l2 ->
  (forall t, filter (keyed t) l1 = filter (keyed t) l2) ->
  l1 = l2.
Proof.
  intros S1; revert l2.
  induction S1 as [|a l1 S1 IH Ha]; intros l2 S2 Hf.
  - destruct l2 as [|b l2]; [reflexivity|].
    specialize (Hf (key b)). cbn in Hf. unfold keyed in Hf.
    rewrite Z.eqb_refl in Hf. discriminate.
  - destruct S2 as [|b l2 S2 Hb].
    + specialize (Hf (key a)). cbn in Hf. unfold keyed in Hf.
      rewrite Z.eqb_refl in Hf. discriminate.
    + assert (Hab : a = b).
      { pose proof (Hf (key a)) as Hfa. cbn [filter] in Hfa.
        change (keyed (key a) a) with (key a =? key a) in Hfa.
        change (keyed (key a) b) with (key b =? key a) in Hfa.
        rewrite Z.eqb_refl in Hfa.
        destruct (key b =? key a) eqn:E.
        - congruence.
        - exfalso. apply Z.eqb_neq in E.
          assert (Ina : In a l2).
          { eapply (proj1 (filter_In (keyed (key a)) a l2)).
            rewrite <- Hfa. left; reflexivity. }
          pose proof (Hf (key b)) as Hfb. cbn [filter] in Hfb.
          change (keyed (key b) a) with (key a =? key b) in Hfb.
          change (keyed (key b) b) with (key b =? key b) in Hfb.
          rewrite Z.eqb_refl in Hfb.
          destruct (key a =? key b) eqn:E'.
          + apply Z.eqb_eq in E'. lia.
          + assert (Inb : In b l1).
            { eapply (proj1 (filter_In (keyed (key b)) b l1)).
              rewrite Hfb. left; reflexivity. }
            rewrite Forall_forall in Ha, Hb.
            specialize (Ha _ Inb). specialize (Hb _ Ina).
            unfold later_first in *. lia. }
      subst b. f_equal. apply IH; [exact S2|].
      intros t. specialize (Hf t). cbn [filter] in Hf.
      destruct (keyed t a); congruence.
Qed.

(** Whatever stable sorting procedure the engine runs, it returns the list
    computed by [sort]. *)
Lemma stable_sort_unique (l r : list A) :
  StronglySorted later_first r ->
  (forall t, filter (keyed t) r = filter (keyed t) l) ->
  r = sort comparefn l.
Proof.
  intros Hs Hf. apply stable_sorted_unique.
  - exact Hs.
  - apply sort_sorted.
  - intros t. rewrite sort_stable. apply Hf.
Qed.

End ArraySortFacts.

Section AlertsFeedFacts.
Import AlertsFeed.
Local Open Scope Z_scope.

Lemma byTimestampDesc_key (a b : alert) :
  (byTimestampDesc a b <=? 0) = (timestamp b <=? timestamp a).
Proof.
  unfold byTimestampDesc.
  destruct (timestamp b <=? timestamp a) eqn:E.
  - apply Z.leb_le in E. apply Z.leb_le. lia.
  - apply Z.leb_gt in E. apply Z.leb_gt. lia.
Qed.

(** C3 as stated fails: two alerts of the same instant, the warning first
    in the response, stay in that order; the critical one is not moved in
    front. *)
Lemma sortedAlerts_tie_keeps_input_order :
  sortedAlerts (Some [warning_alert; critical_alert])
  = [warning_alert; critical_alert]
  /\ spec_ordered (sortedAlerts (Some [warning_alert; critical_alert]))
     = false.
Proof. split; reflexivity. Qed.

(** C3, amended.  The feed is a rearrangement of the alerts received,
    ordered with the most recent timestamp first; alerts with equal
    timestamps keep the order in which they were received (the severity
    plays no part), and a missing alert list gives the empty feed. *)
Theorem sortedAlerts_newest_first_stable (l : list alert) :
  Permutation (sortedAlerts (Some l)) l
  /\ StronglySorted newer_first (sortedAlerts (Some l))
  /\ (forall t : Z,
        filter (at_time t) (sortedAlerts (Some l)) = filter (at_time t) l)
  /\ sortedAlerts None = [].
Proof.
  unfold sortedAlerts. repeat split.
  - apply sort_perm.
  - apply (sort_sorted timestamp byTimestampDesc byTimestampDesc_key).
  - intros t.
    apply (sort_stable timestamp byTimestampDesc byTimestampDesc_key).
Qed.

End AlertsFeedFacts.

(** ** Sums computed by [reduce] *)

Section StatsFacts.
Import Stats.
Local Open Scope Q_scope.

Lemma fold_left_Qplus (l : list Q) (a : Q) :
  fold_left Qplus l a == a + Qsum l.
Proof.
  revert a; induction l as [|x l IH]; intros a; cbn [fold_left Qsum].
  - ring.
  - rewrite IH. ring.
Qed.

Lemma reduce_sum_Qsum (l : list Q) : reduce_sum l == Qsum l.
Proof. unfold reduce_sum. rewrite fold_left_Qplus. ring. Qed.




End StatsFacts.

(** ** The rows that reach the averages of the selected station *)

Section RuralAverageFacts.
Import Stats Rural.
Local Open Scope Q_scope.

Lemma avgSelected_nonempty (data : list (string * Js.value)) :
  present (map snd data) <> [] ->
  avgSelected data
  = Js.Num (reduce_sum (present (map snd data))
            / count (present (map snd data))).
Proof.
  unfold avgSelected. destruct (present (map snd data)); [congruence|].
  reflexivity.
Qed.

(** Between the trend rows and the average stands [getStationData]: once a
    station is selected every month carries a number (the last one seen,
    at first [selectedWaterTableDepth || 0]), so the average always runs
    over twelve values. *)
Lemma carryForward_numbers (lookup : string -> Js.value) (last : Js.value)
  (ms : list string) :
  Js.eq_null last = false ->
  Forall (fun row => Js.eq_null (snd row) = false)
         (carryForward lookup last ms).
Proof.
  revert last; induction ms as [|m ms IH]; intros last Hl;
    cbn [carryForward]; constructor.
  - cbn [snd]. destruct (Js.eq_null (lookup m)) eqn:E; assumption.
  - apply IH. destruct (Js.eq_null (lookup m)) eqn:E; assumption.
Qed.

Lemma or_else_zero_number (v : Js.value) :
  Js.eq_null (Js.or_else v (Js.Num 0)) = false.
Proof.
  unfold Js.or_else. destruct v as [| |q]; cbn; try reflexivity.
  destruct (negb (Qeq_bool q 0)); reflexivity.
Qed.

Lemma depthData_numbers (st : stats) (sel : option string)
  (trendData : list trend) :
  Forall (fun row => Js.eq_null (snd row) = false)
         (depthData st sel trendData).
Proof.
  unfold depthData. destruct sel as [s|]; [|constructor].
  destruct (String.eqb s EmptyString); [constructor|].
  apply carryForward_numbers, or_else_zero_number.
Qed.

End RuralAverageFacts.

(** ** C6: the water table of the selected station *)

Section RuralWaterTableFacts.
Import Rural.
Local Open Scope Q_scope.

Lemma coalesce_missing (a b : Js.value) :
  Js.eq_null a = true -> Js.coalesce a b = b.
Proof. unfold Js.coalesce. intros ->. reflexivity. Qed.

Lemma coalesce_present (q : Q) (b : Js.value) :
  Js.coalesce (Js.Num q) b = Js.Num q.
Proof. reflexivity. Qed.

(** The aquifer depth of the selection is always a number: the chain of
    fallbacks ends in 0. *)
Lemma selectedAquiferDepth_number (st : stats) (sel : option string) :
  exists d : Q, selectedAquiferDepth st sel = Js.Num d.
Proof.
  unfold selectedAquiferDepth, Js.coalesce.
  destruct (field (selectedTelemetry st sel) t_aquifer_depth_m);
    destruct (field (selectedStationData st sel) aquifer_depth_m);
    destruct (avg_aquifer_depth_m st); cbn [Js.eq_null]; eauto.
Qed.

Lemma Qeq_bool_false_neq (x y : Q) : Qeq_bool x y = false -> ~ x == y.
Proof.
  intros E H. apply Qeq_bool_iff in H. congruence.
Qed.

(** C6 as stated fails.  For a station without readings and without any
    aquifer depth the derived water table is [null], not a number near a
    quarter of the aquifer depth, whatever the tolerance; and a water
    table kept in the station record is shown as it is (12 m for an
    aquifer of 80 m) although the telemetry has none. *)
Lemma selectedWaterTableDepth_not_a_quarter :
  (Js.eq_null (field (selectedTelemetry statsNoDepth (Some "Village Well"%string))
                     t_water_table_m) = true
   /\ selectedWaterTableDepth statsNoDepth (Some "Village Well"%string)
      = Js.Null
   /\ ~ (exists tolerance : Q,
           derived_near_quarter tolerance statsNoDepth
             (Some "Village Well"%string)))
  /\ (Js.eq_null (field (selectedTelemetry statsRecorded
                           (Some "Farm Borewell"%string))
                        t_water_table_m) = true
      /\ selectedAquiferDepth statsRecorded (Some "Farm Borewell"%string)
         = Js.Num 80
      /\ selectedWaterTableDepth statsRecorded (Some "Farm Borewell"%string)
         = Js.Num 12
      /\ ~ derived_near_quarter 1 statsRecorded
             (Some "Farm Borewell"%string)).
Proof.
  split; repeat split; try reflexivity.
  - intros (tol & w & d & Hw & _). cbv in Hw. discriminate.
  - intros (w & d & Hw & Hd & Hb).
    cbv in Hw, Hd. injection Hw as <-. injection Hd as <-.
    cbv in Hb. apply Hb. reflexivity.
Qed.

(** C6, amended.  When neither the latest telemetry nor the station
    record of the selection has a water table, the derived value is
    exactly 0.25 times the selected aquifer depth when that depth is not
    zero (no noise is added), and [null] when it is zero.  A water table
    present in the telemetry, or else in the station record, is used as
    it is. *)
Theorem selectedWaterTableDepth_derivation (st : stats)
  (sel : option string) :
  Js.eq_null (field (selectedTelemetry st sel) t_water_table_m) = true ->
  Js.eq_null (field (selectedStationData st sel) water_table_m) = true ->
  exists d : Q,
    selectedAquiferDepth st sel = Js.Num d
    /\ (~ d == 0 ->
        selectedWaterTableDepth st sel = Js.Num (d * 0.25)
        /\ derived_near_quarter 0 st sel)
    /\ (d == 0 -> selectedWaterTableDepth st sel = Js.Null).
Proof.
  intros Ht Hs.
  destruct (selectedAquiferDepth_number st sel) as [d Hd].
  exists d. split; [exact Hd|].
  unfold selectedWaterTableDepth.
  rewrite (coalesce_missing _ _ Ht), (coalesce_missing _ _ Hs), Hd.
  unfold quarterOfAquifer, Js.truthy.
  split.
  - intros Hnz.
    destruct (Qeq_bool d 0) eqn:E.
    + apply Qeq_bool_iff in E. contradiction.
    + cbn [negb]. split; [reflexivity|].
      exists (d * 0.25), d. repeat split.
      * unfold selectedWaterTableDepth.
        rewrite (coalesce_missing _ _ Ht), (coalesce_missing _ _ Hs), Hd.
        unfold quarterOfAquifer, Js.truthy. rewrite E. reflexivity.
      * exact Hd.
      * setoid_replace (d * 0.25 - 0.25 * d) with 0 by ring.
        cbn. discriminate.
  - intros Hz. apply Qeq_bool_iff in Hz. rewrite Hz. reflexivity.
Qed.

(** A station whose telemetry has the aquifer depth 42.5 and no water
    table anywhere. *)
Lemma selectedWaterTableDepth_derivation_witness :
  exists d : Q,
    selectedAquiferDepth statsPlain (Some "Canal Gauge"%string) = Js.Num d
    /\ (~ d == 0 ->
        selectedWaterTableDepth statsPlain (Some "Canal Gauge"%string)
        = Js.Num (d * 0.25)
        /\ derived_near_quarter 0 statsPlain (Some "Canal Gauge"%string))
    /\ (d == 0 ->
        selectedWaterTableDepth statsPlain (Some "Canal Gauge"%string)
        = Js.Null).
Proof.
  apply (@selectedWaterTableDepth_derivation statsPlain
           (Some "Canal Gauge"%string)); reflexivity.
Defined.

(** A water table that is present wins over the derivation. *)
Lemma selectedWaterTableDepth_explicit (st : stats) (sel : option string)
  (w : Q) :
  field (selectedTelemetry st sel) t_water_table_m = Js.Num w
  \/ (Js.eq_null (field (selectedTelemetry st sel) t_water_table_m) = true
      /\ field (selectedStationData st sel) water_table_m = Js.Num w) ->
  selectedWaterTableDepth st sel = Js.Num w.
Proof.
  unfold selectedWaterTableDepth. intros [Ht | [Ht Hs]].
  - rewrite Ht. reflexivity.
  - rewrite (coalesce_missing _ _ Ht), Hs. reflexivity.
Qed.

End RuralWaterTableFacts.

(** ** C10: the auto-centre of the map *)

Section MapViewFacts.
Import Stats MapView.
Local Open Scope Q_scope.



(** Every node that the filter keeps belongs to the requested context,
    unless all nodes were asked for. *)
Lemma filteredNodes_context (nodes : list node) (contextFilter : string)
  (n : node) :
  In n (filteredNodes nodes contextFilter) ->
  In n nodes
  /\ (contextFilter = "all"%string \/ context_mode n = contextFilter).
Proof.
  unfold filteredNodes.
  destruct (String.eqb contextFilter "all") eqn:E.
  - apply String.eqb_eq in E. intros H; split; [exact H | left; exact E].
  - rewrite filter_In. intros [H Hc]. split; [exact H|].
    right. apply String.eqb_eq. exact Hc.
Qed.

(** The effect does not run when neither dependency changed: the centre
    stays where it was. *)
Lemma render_not_due (nodes : list node) (contextFilter : string)
  (v : view) :
  render (Some (contextFilter,
                List.length (filteredNodes nodes contextFilter)))
         nodes contextFilter v = v.
Proof.
  unfold render, effectDue.
  rewrite String.eqb_refl, Nat.eqb_refl. reflexivity.
Qed.


(** On the sample nodes the urban filter centres the map between the two
    urban nodes, and a filter that matches nothing leaves the Delhi
    default in place. *)
Example autoCenter_samples :
  (fst (center (render None sampleNodes "urban" initialView)) == 28.5
   /\ snd (center (render None sampleNodes "urban" initialView)) == 77.1)
  /\ render None sampleNodes "rural" {| center := (10, 20); zoom := 7 |}
     = {| center := (10, 20); zoom := 7 |}.
Proof. repeat split; reflexivity. Qed.

End MapViewFacts.

(** ** C9: the great-circle distance *)

Section NearbyReportsFacts.
Import NearbyReports.
Local Open Scope R_scope.

Lemma Int_part_half : Int_part (/ 2) = 0%Z.
Proof.
  unfold Int_part.
  replace (up (/ 2)) with 1%Z; [reflexivity|].
  apply tech_up; lra.
Qed.

Lemma toFixed2_zero : toFixed2 0 = "0.00"%string.
Proof.
  unfold toFixed2.
  destruct (Rlt_dec 0 0) as [H|_]; [lra|].
  rewrite Rabs_R0.
  replace (0 * 100 + / 2) with (/ 2) by lra.
  rewrite Int_part_half. reflexivity.
Qed.

Lemma atan2_zero_one : atan2 0 1 = 0.
Proof.
  unfold atan2. destruct (Rlt_dec 0 1) as [_|H]; [|lra].
  replace (0 / 1) with 0 by lra. apply atan_0.
Qed.

Lemma distanceKm_sym (lat1 lng1 lat2 lng2 : R) :
  distanceKm lat1 lng1 lat2 lng2 = distanceKm lat2 lng2 lat1 lng1.
Proof.
  unfold distanceKm.
  replace ((lat2 - lat1) * PI / 180 / 2)
    with (- ((lat1 - lat2) * PI / 180 / 2)) by lra.
  replace ((lng2 - lng1) * PI / 180 / 2)
    with (- ((lng1 - lng2) * PI / 180 / 2)) by lra.
  rewrite !sin_neg.
  set (s := sin ((lat1 - lat2) * PI / 180 / 2)).
  set (t := sin ((lng1 - lng2) * PI / 180 / 2)).
  set (c1 := cos (lat1 * PI / 180)).
  set (c2 := cos (lat2 * PI / 180)).
  replace (- s * - s + c1 * c2 * - t * - t)
    with (s * s + c2 * c1 * t * t) by ring.
  reflexivity.
Qed.

Lemma distanceKm_same (lat lng : R) : distanceKm lat lng lat lng = 0.
Proof.
  unfold distanceKm.
  replace ((lat - lat) * PI / 180 / 2) with 0 by lra.
  replace ((lng - lng) * PI / 180 / 2) with 0 by lra.
  rewrite sin_0.
  replace (0 * 0 + cos (lat * PI / 180) * cos (lat * PI / 180) * 0 * 0)
    with 0 by ring.
  rewrite Rminus_0_r, sqrt_0, sqrt_1, atan2_zero_one. ring.
Qed.

Lemma atan2_quadrant (y x : R) :
  0 <= y -> 0 <= x -> 0 <= atan2 y x <= PI / 2.
Proof.
  intros Hy Hx. pose proof PI_RGT_0 as Hpi. unfold atan2.
  destruct (Rlt_dec 0 x) as [Hx0|Hx0].
  - assert (Hq : 0 <= y / x).
    { unfold Rdiv. apply Rmult_le_pos; [exact Hy|].
      left. apply Rinv_0_lt_compat. exact Hx0. }
    pose proof (atan_bound (y / x)) as [_ Hub].
    split; [|lra].
    destruct Hq as [Hq|Hq].
    + pose proof (atan_increasing 0 (y / x) Hq) as Hinc.
      rewrite atan_0 in Hinc. lra.
    + rewrite <- Hq, atan_0. lra.
  - destruct (Rlt_dec x 0) as [Hneg|_]; [lra|].
    destruct (Rlt_dec 0 y) as [_|_]; [lra|].
    destruct (Rlt_dec y 0) as [Hneg|_]; lra.
Qed.

(** A distance lies between 0 and half the circumference of the sphere,
    far below the 10^21 from which [toFixed] switches to the exponent
    notation. *)
Lemma distanceKm_bounds (lat1 lng1 lat2 lng2 : R) :
  0 <= distanceKm lat1 lng1 lat2 lng2 <= 6371 * PI
  /\ distanceKm lat1 lng1 lat2 lng2 <= 25484.
Proof.
  unfold distanceKm.
  set (a := sin _ * sin _ + _).
  pose proof (atan2_quadrant (sqrt a) (sqrt (1 - a))
                (sqrt_pos _) (sqrt_pos _)) as [Hlo Hhi].
  pose proof PI_4 as H4. pose proof PI_RGT_0 as Hpi.
  repeat split; lra.
Qed.

(** C9.  The distance is symmetric in its two points, and the distance
    of a point to itself is printed as 0.00. *)
Theorem calculateDistance_symmetric_zero :
  (forall lat1 lng1 lat2 lng2 : R,
      calculateDistance lat1 lng1 lat2 lng2
      = calculateDistance lat2 lng2 lat1 lng1)
  /\ (forall lat lng : R,
        calculateDistance lat lng lat lng = "0.00"%string).
Proof.
  split.
  - intros. unfold calculateDistance. rewrite distanceKm_sym. reflexivity.
  - intros. unfold calculateDistance.
    rewrite distanceKm_same. apply toFixed2_zero.
Qed.

End NearbyReportsFacts.

(** ** C5: the status classifier on low pressure *)

Section ClassifierFacts.
Import Classifier.
Local Open Scope Q_scope.

(** C5.  An urban reading that carries all its fields and whose pressure
    is below 30 is classified [critical], whatever its other values and
    whatever the rural drought threshold; so is the reading of scenario A
    with pressure 25. *)
Theorem classify_urban_low_pressure (drought_threshold_m : Q)
  (r : reading) (p : Q) :
  well_formed Urban r = true ->
  pressure r = Js.Num p ->
  p < 30 ->
  classify drought_threshold_m Urban (Some r) = critical.
Proof.
  intros Hwf Hp Hlt. unfold classify. rewrite Hwf. cbn [negb].
  unfold hard_breach. rewrite Hp. cbn [holds].
  apply ltb_lt in Hlt. rewrite Hlt, orb_true_r. reflexivity.
Qed.

(** Scenario A: the guide's sample reading with pressure 25. *)
Lemma classify_urban_low_pressure_witness :
  classify 100 Urban (Some scenarioA) = critical.
Proof.
  apply (classify_urban_low_pressure 100 scenarioA 25).
  - reflexivity.
  - reflexivity.
  - reflexivity.
Defined.

(** The classifier is total and answers [offline] without a reading. *)
Lemma classify_no_reading (drought_threshold_m : Q) (c : category) :
  classify drought_threshold_m c None = offline.
Proof. reflexivity. Qed.

End ClassifierFacts.

(** ** C7, C8: the simulation scheduler *)

Section SchedulerFacts.
Import Scheduler.
Context {node reading : Type}.
Variable generate : node -> nat -> reading.

Lemma filter_generated_length (test : nat -> node -> reading -> bool)
  (t : nat) (nodes : list node) :
  List.length
    (filter (fun a => test t (fst a) (snd a))
            (map (fun n => (n, generate n t)) nodes))
  = List.length (filter (fun n => test t n (generate n t)) nodes).
Proof.
  induction nodes as [|n nodes IH]; [reflexivity|].
  cbn [map filter fst snd].
  destruct (test t n (generate n t)); cbn [List.length]; rewrite IH;
    reflexivity.
Qed.

Lemma filter_split_length {T : Type} (f : T -> bool) (l : list T) :
  (List.length (filter f l)
   + List.length (filter (fun x => negb (f x)) l))%nat
  = List.length l.
Proof.
  induction l as [|x l IH]; [reflexivity|].
  cbn [filter]. destruct (f x); cbn [negb List.length]; lia.
Qed.

(** What a run submits does not depend on the sink: the outcome of a
    submission never changes a later submission. *)
Lemma loop_attempts_independent (submit submit' : nat -> node -> reading -> bool)
  (stop : nat -> bool) (cfg : config) (nodes : list node)
  (remaining : option nat) (t fuel : nat) :
  map attempts (fst (loop generate submit stop cfg nodes remaining t fuel))
  = map attempts
        (fst (loop generate submit' stop cfg nodes remaining t fuel)).
Proof.
  revert remaining t;
    induction fuel as [|fuel IH]; intros remaining t; cbn [loop].
  - destruct remaining as [[|k]|]; reflexivity.
  - destruct remaining as [[|k]|]; try reflexivity;
      (destruct (stop t); [reflexivity|]);
      cbn [option_map];
      match goal with
      | |- context [loop generate submit stop cfg nodes ?r (S t) fuel] =>
          specialize (IH r (S t));
          destruct (loop generate submit stop cfg nodes r (S t) fuel);
          destruct (loop generate submit' stop cfg nodes r (S t) fuel)
      end;
      cbn [fst map attempts run_tick] in *; rewrite IH; reflexivity.
Qed.

(** Every cycle of a run submits, for each node, the reading generated in
    that very cycle. *)
Lemma loop_attempts_fresh (submit : nat -> node -> reading -> bool)
  (stop : nat -> bool) (cfg : config) (nodes : list node)
  (remaining : option nat) (t fuel : nat) :
  Forall (fun c => attempts c
                   = map (fun n => (n, generate n (cycle_no c))) nodes)
         (fst (loop generate submit stop cfg nodes remaining t fuel)).
Proof.
  revert remaining t;
    induction fuel as [|fuel IH]; intros remaining t; cbn [loop].
  - destruct remaining as [[|k]|]; apply Forall_nil.
  - destruct remaining as [[|k]|]; cbn [option_map];
      [apply Forall_nil | |];
      (destruct (stop t); [apply Forall_nil|]);
      match goal with
      | |- context [loop generate submit stop cfg nodes ?r (S t) fuel] =>
          specialize (IH r (S t));
          destruct (loop generate submit stop cfg nodes r (S t) fuel)
      end;
      cbn [fst] in *; (apply Forall_cons; [reflexivity | exact IH]).
Qed.

(** A run without a bound on its cycles and without a stop signal is
    still running after any number of ticks, one cycle per tick. *)
Lemma loop_unbounded_running (submit : nat -> node -> reading -> bool)
  (stop : nat -> bool) (cfg : config) (nodes : list node) (t fuel : nat) :
  (forall i, (i < fuel)%nat -> stop (t + i)%nat = false) ->
  loop generate submit stop cfg nodes None t fuel
  = (map (run_tick generate submit cfg nodes) (seq t fuel), Running).
Proof.
  revert t; induction fuel as [|fuel IH]; intros t Hs; cbn [loop].
  - reflexivity.
  - pose proof (Hs 0%nat ltac:(lia)) as H0.
    rewrite Nat.add_0_r in H0. rewrite H0. cbn [option_map].
    rewrite IH; [reflexivity|].
    intros i Hi. replace (S t + i)%nat with (t + S i)%nat by lia.
    apply Hs. lia.
Qed.

(** It ends, as [Stopped], at the first tick boundary at which the stop
    signal is seen. *)
Lemma loop_unbounded_stopped (submit : nat -> node -> reading -> bool)
  (stop : nat -> bool) (cfg : config) (nodes : list node)
  (t k fuel : nat) :
  (forall i, (i < k)%nat -> stop (t + i)%nat = false) ->
  stop (t + k)%nat = true ->
  (k < fuel)%nat ->
  loop generate submit stop cfg nodes None t fuel
  = (map (run_tick generate submit cfg nodes) (seq t k), Stopped).
Proof.
  revert t fuel; induction k as [|k IH]; intros t fuel Hs Hk Hf;
    (destruct fuel as [|fuel]; [lia|]); cbn [loop].
  - rewrite Nat.add_0_r in Hk. rewrite Hk. reflexivity.
  - pose proof (Hs 0%nat ltac:(lia)) as H0.
    rewrite Nat.add_0_r in H0. rewrite H0. cbn [option_map].
    rewrite (IH (S t) fuel); [reflexivity| | |lia].
    + intros i Hi. replace (S t + i)%nat with (t + S i)%nat by lia.
      apply Hs. lia.
    + replace (S t + k)%nat with (t + S k)%nat by lia. exact Hk.
Qed.

(** A run of [n] cycles without a stop signal completes after exactly
    [n] cycles. *)
Lemma loop_bounded_completed (submit : nat -> node -> reading -> bool)
  (stop : nat -> bool) (cfg : config) (nodes : list node)
  (t n fuel : nat) :
  (forall i, (i < n)%nat -> stop (t + i)%nat = false) ->
  (n <= fuel)%nat ->
  loop generate submit stop cfg nodes (Some n) t fuel
  = (map (run_tick generate submit cfg nodes) (seq t n), Completed).
Proof.
  revert t fuel; induction n as [|n IH]; intros t fuel Hs Hf.
  - destruct fuel; reflexivity.
  - destruct fuel as [|fuel]; [lia|]. cbn [loop].
    pose proof (Hs 0%nat ltac:(lia)) as H0.
    rewrite Nat.add_0_r in H0. rewrite H0. cbn [option_map Nat.pred].
    rewrite (IH (S t) fuel); [reflexivity| |lia].
    intros i Hi. replace (S t + i)%nat with (t + S i)%nat by lia.
    apply Hs. lia.
Qed.

End SchedulerFacts.

Section SchedulerClaims.
Import Scheduler.

Lemma loop_sleep {node reading : Type} (generate : node -> nat -> reading)
  (submit : nat -> node -> reading -> bool) (stop : nat -> bool)
  (cfg : config) (nodes : list node) (remaining : option nat)
  (t fuel : nat) :
  Forall (fun c => sleep_seconds c = interval_seconds cfg)
         (fst (loop generate submit stop cfg nodes remaining t fuel)).
Proof.
  revert remaining t;
    induction fuel as [|fuel IH]; intros remaining t; cbn [loop].
  - destruct remaining as [[|k]|]; apply Forall_nil.
  - destruct remaining as [[|k]|]; cbn [option_map];
      [apply Forall_nil | |];
      (destruct (stop t); [apply Forall_nil|]);
      match goal with
      | |- context [loop generate submit stop cfg nodes ?r (S t) fuel] =>
          specialize (IH r (S t));
          destruct (loop generate submit stop cfg nodes r (S t) fuel)
      end;
      cbn [fst] in *; (apply Forall_cons; [reflexivity | exact IH]).
Qed.

(** C7.  In every tick each node's reading is submitted exactly once: the
    submissions of a cycle are the readings generated in that cycle, one
    per node; a failed submission only adds to the failed count of the
    cycle (submitted and failed counts add up to the number of nodes).
    The loop carries no reading from one tick to the next: every cycle of
    a run submits the readings generated in that cycle, and what a run
    submits is the same whatever the sink answered before. *)
Theorem failed_submission_counted_not_retried
  (node reading : Type) (generate : node -> nat -> reading)
  (submit : nat -> node -> reading -> bool) (stop : nat -> bool)
  (cfg : config) (nodes : list node) :
  (forall t : nat,
      let c := run_tick generate submit cfg nodes t in
      attempts c = map (fun n => (n, generate n t)) nodes
      /\ List.length (attempts c) = List.length nodes
      /\ failed_count c
         = List.length
             (filter (fun n => negb (submit t n (generate n t))) nodes)
      /\ (submitted_count c + failed_count c)%nat = List.length nodes)
  /\ (forall (remaining : option nat) (t fuel : nat),
        Forall (fun c => attempts c
                         = map (fun n => (n, generate n (cycle_no c))) nodes)
               (fst (loop generate submit stop cfg nodes remaining t fuel)))
  /\ (forall (submit' : nat -> node -> reading -> bool)
             (remaining : option nat) (t fuel : nat),
        map attempts
            (fst (loop generate submit stop cfg nodes remaining t fuel))
        = map attempts
              (fst (loop generate submit' stop cfg nodes remaining t fuel))).
Proof.
  split; [|split].
  - intros t c. subst c. cbn [run_tick attempts failed_count submitted_count].
    repeat split.
    + apply length_map.
    + apply (filter_generated_length generate
               (fun t n r => negb (submit t n r))).
    + rewrite filter_split_length. apply length_map.
  - intros. apply loop_attempts_fresh.
  - intros. apply loop_attempts_independent.
Qed.

(** Scenario F of the specification: three cycles over three nodes, the
    sink of node 2 always failing: one failure in each cycle, the other
    two nodes submitted, and the run completes its three cycles. *)
Example scenarioF :
  let generate := fun (n t : nat) => (n * 100 + t)%nat in
  let submit := fun (_ n _ : nat) => negb (n =? 2)%nat in
  let cfg :=
    configure "http://localhost:8000"
      {| opt_interval := None; opt_cycles := Some 3%nat; opt_url := None |} in
  let result := run generate submit (fun _ => false) cfg [1; 2; 3]%nat 10 in
  map failed_count (fst result) = [1; 1; 1]%nat
  /\ map submitted_count (fst result) = [2; 2; 2]%nat
  /\ snd result = Completed.
Proof. repeat split; reflexivity. Qed.

(** Runs with the default configuration: three ticks without a stop
    signal, and a stop signal seen before the third tick. *)
Example default_runs :
  let cfg := configure "http://localhost:8000" no_options in
  let generate := fun (n t : nat) => (n * 100 + t)%nat in
  let submit := fun (_ _ _ : nat) => true in
  (map cycle_no (fst (run generate submit (fun _ => false) cfg [1; 2]%nat 3))
   = [0; 1; 2]%nat
   /\ snd (run generate submit (fun _ => false) cfg [1; 2]%nat 3) = Running)
  /\ (map cycle_no
          (fst (run generate submit (fun t => (t =? 2)%nat) cfg [1; 2]%nat 9))
      = [0; 1]%nat
      /\ snd (run generate submit (fun t => (t =? 2)%nat) cfg [1; 2]%nat 9)
         = Stopped).
Proof. repeat split; reflexivity. Qed.

(** C8.  Without options the interval is 2 seconds and the number of
    cycles has no bound: such a run sleeps 2 seconds after each cycle,
    does one cycle per tick for as long as no stop signal is seen (it
    never completes by itself), and stops at the first tick boundary at
    which the signal is seen. *)
Theorem default_interval_and_cycles (default_endpoint : string) :
  let cfg := configure default_endpoint no_options in
  interval_seconds cfg = 2%Z
  /\ cycles cfg = None
  /\ (forall (node reading : Type) (generate : node -> nat -> reading)
             (submit : nat -> node -> reading -> bool) (stop : nat -> bool)
             (nodes : list node) (fuel : nat),
        Forall (fun c => sleep_seconds c = 2%Z)
               (fst (run generate submit stop cfg nodes fuel))
        /\ snd (run generate submit stop cfg nodes fuel) <> Completed
        /\ ((forall i, (i < fuel)%nat -> stop i = false) ->
            run generate submit stop cfg nodes fuel
            = (map (run_tick generate submit cfg nodes) (seq 0 fuel),
               Running))
        /\ (forall k : nat,
              (forall i, (i < k)%nat -> stop i = false) ->
              stop k = true ->
              (k < fuel)%nat ->
              run generate submit stop cfg nodes fuel
              = (map (run_tick generate submit cfg nodes) (seq 0 k),
                 Stopped))).
Proof.
  intros cfg. split; [reflexivity|]. split; [reflexivity|].
  intros node reading generate submit stop nodes fuel.
  unfold run. change (cycles cfg) with (@None nat).
  repeat split.
  - apply (loop_sleep generate submit stop cfg nodes None 0 fuel).
  - generalize 0%nat. induction fuel as [|fuel IH]; intros t; cbn [loop].
    + discriminate.
    + destruct (stop t); [discriminate|]. cbn [option_map].
      specialize (IH (S t)).
      destruct (loop generate submit stop cfg nodes None (S t) fuel).
      exact IH.
  - intros Hs. apply loop_unbounded_running. exact Hs.
  - intros k Hs Hk Hf. apply loop_unbounded_stopped; assumption.
Qed.

End SchedulerClaims.

(* ================================================================== *)
(** * Part III.  Further properties of the dashboards                  *)
(* ================================================================== *)

(** ** The trend rows of a selected station *)

Section RuralTrendFacts.
Import Stats Rural RuralTrends.
Local Open Scope Q_scope.

Lemma find_app_first {A : Type} (f : A -> bool) (l1 l2 : list A) :
  find f (l1 ++ l2)
  = match find f l1 with
    | Some x => Some x
    | None => find f l2
    end.
Proof.
  induction l1 as [|x l1 IH]; [reflexivity|].
  simpl. destruct (f x); [reflexivity | exact IH].
Qed.

Lemma find_filter_and {A : Type} (p q : A -> bool) (l : list A) :
  find q (filter p l) = find (fun x => p x && q x) l.
Proof.
  induction l as [|x l IH]; [reflexivity|].
  cbn [filter find]. destruct (p x); cbn [andb find]; rewrite IH;
    reflexivity.
Qed.

Lemma fold_left_last_match (m : string) (l : list trend) (acc : Js.value) :
  fold_left (fun a d => if String.eqb (month d) m then measure d else a)
            l acc
  = match find (fun d => String.eqb (month d) m) (List.rev l) with
    | Some d => measure d
    | None => acc
    end.
Proof.
  revert acc; induction l as [|d l IH]; intros acc; [reflexivity|].
  cbn [fold_left List.rev]. rewrite IH, find_app_first.
  destruct (find _ (List.rev l)); [reflexivity|].
  cbn [find]. destruct (String.eqb (month d) m); reflexivity.
Qed.

(** X1.  The per-month object of a station, read at a month, holds the
    value of the last trend row of that station and month (a later row
    overwrites an earlier one), whatever rows of other stations or months
    sit in between; without such a row the read gives [undefined]. *)
Theorem byMonthMap_last_entry (trendData : list trend) (sel m : string) :
  byMonthMap trendData sel m
  = match lastEntry trendData sel m with
    | Some d => measure d
    | None => Js.Undefined
    end.
Proof.
  unfold byMonthMap, lastEntry.
  rewrite fold_left_last_match, <- filter_rev, find_filter_and.
  reflexivity.
Qed.

Lemma carryForward_months (lookup : string -> Js.value) (last : Js.value)
  (ms : list string) :
  map fst (carryForward lookup last ms) = ms.
Proof.
  revert last; induction ms as [|m ms IH]; intros last; [reflexivity|].
  cbn [carryForward map fst]. rewrite IH. reflexivity.
Qed.

Lemma carryForward_sources (lookup : string -> Js.value) (last : Js.value)
  (ms : list string) :
  Forall (fun row =>
            snd row = last
            \/ exists m, In m ms /\ snd row = lookup m
                         /\ Js.eq_null (lookup m) = false)
         (carryForward lookup last ms).
Proof.
  revert last; induction ms as [|m ms IH]; intros last;
    cbn [carryForward]; constructor.
  - cbn [snd]. destruct (Js.eq_null (lookup m)) eqn:E.
    + left; reflexivity.
    + right. exists m. repeat split; [left; reflexivity | exact E].
  - eapply Forall_impl; [|apply IH].
    intros row [H | (m' & Hin & Hv & Hp)].
    + destruct (Js.eq_null (lookup m)) eqn:E.
      * left; exact H.
      * right. exists m. repeat split; [left; reflexivity | exact H | exact E].
    + right. exists m'. repeat split; [right; exact Hin | exact Hv | exact Hp].
Qed.

Lemma carryForward_own (lookup : string -> Js.value) (last : Js.value)
  (ms : list string) (m : string) :
  In m ms -> Js.eq_null (lookup m) = false ->
  In (m, lookup m) (carryForward lookup last ms).
Proof.
  revert last; induction ms as [|m0 ms IH]; intros last Hin Hp;
    [destruct Hin|].
  cbn [carryForward]. destruct Hin as [-> | Hin].
  - left. rewrite Hp. reflexivity.
  - right. apply IH; assumption.
Qed.

Lemma carryForward_repeats (lookup : string -> Js.value) (last : Js.value)
  (ms : list string) :
  (forall m, In m ms -> Js.eq_null (lookup m) = true) ->
  carryForward lookup last ms = map (fun m => (m, last)) ms.
Proof.
  revert last; induction ms as [|m ms IH]; intros last Hn; [reflexivity|].
  cbn [carryForward map]. rewrite (Hn m (or_introl eq_refl)).
  rewrite IH; [reflexivity|]. intros m' Hin. apply Hn. right; exact Hin.
Qed.

(** X2.  Filling the months of a chart: there is one row per month, in
    the order of the months; a month that has a value shows it; every
    value shown is either the default or the value of one of the months,
    never anything else; and when no month has a value every row shows
    the default. *)
Theorem carryForward_fill (lookup : string -> Js.value) (last : Js.value)
  (ms : list string) :
  map fst (carryForward lookup last ms) = ms
  /\ (forall m, In m ms -> Js.eq_null (lookup m) = false ->
                In (m, lookup m) (carryForward lookup last ms))
  /\ Forall (fun row =>
               snd row = last
               \/ exists m, In m ms /\ snd row = lookup m
                            /\ Js.eq_null (lookup m) = false)
            (carryForward lookup last ms)
  /\ ((forall m, In m ms -> Js.eq_null (lookup m) = true) ->
      carryForward lookup last ms = map (fun m => (m, last)) ms).
Proof.
  repeat split.
  - apply carryForward_months.
  - intros m. apply carryForward_own.
  - apply carryForward_sources.
  - apply carryForward_repeats.
Qed.

Lemma depthData_selected (st : stats) (s : string)
  (trendData : list trend) :
  String.eqb s EmptyString = false ->
  map fst (depthData st (Some s) trendData) = months
  /\ List.length (depthData st (Some s) trendData) = 12%nat
  /\ Forall (fun row => exists q, snd row = Js.Num q)
            (depthData st (Some s) trendData).
Proof.
  intros E.
  assert (Hm : map fst (depthData st (Some s) trendData) = months).
  { unfold depthData. rewrite E. apply carryForward_months. }
  split; [exact Hm|]. split.
  - rewrite <- (length_map fst), Hm. reflexivity.
  - eapply Forall_impl; [|apply depthData_numbers].
    intros [m v] Hv. cbn [snd] in *.
    destruct v as [| |q]; try discriminate. exists q; reflexivity.
Qed.

(** X3.  The rows of the selected station are empty when no station is
    selected (no selection, or the empty name); otherwise they are twelve
    rows, January to December, and each carries a number: no month of a
    selected station is left without a value. *)
Theorem depthData_rows (st : stats) (sel : option string)
  (trendData : list trend) :
  match sel with
  | None => depthData st sel trendData = []
  | Some s =>
      if String.eqb s EmptyString
      then depthData st sel trendData = []
      else map fst (depthData st sel trendData) = months
           /\ List.length (depthData st sel trendData) = 12%nat
           /\ Forall (fun row => exists q, snd row = Js.Num q)
                     (depthData st sel trendData)
  end.
Proof.
  destruct sel as [s|]; [|reflexivity].
  destruct (String.eqb s EmptyString) eqn:E.
  - unfold depthData. rewrite E. reflexivity.
  - apply depthData_selected. exact E.
Qed.

Lemma filter_none {A : Type} (p : A -> bool) (l : list A) :
  Forall (fun x => p x = false) l -> filter p l = [].
Proof.
  induction 1 as [|x l Hx _ IH]; [reflexivity|].
  cbn [filter]. rewrite Hx. exact IH.
Qed.

(** X4.  A selected station without any row in the trend data gets a
    flat chart: every month shows the default
    [selectedWaterTableDepth || 0]. *)
Theorem depthData_without_trend (st : stats) (s : string)
  (trendData : list trend) :
  String.eqb s EmptyString = false ->
  Forall (fun d => trend_station d <> s) trendData ->
  exists v : Q,
    Js.or_else (selectedWaterTableDepth st (Some s)) (Js.Num 0) = Js.Num v
    /\ depthData st (Some s) trendData
       = map (fun m => (m, Js.Num v)) months.
Proof.
  intros Hs Hno.
  assert (Hv : exists v,
             Js.or_else (selectedWaterTableDepth st (Some s)) (Js.Num 0)
             = Js.Num v).
  { pose proof (or_else_zero_number (selectedWaterTableDepth st (Some s)))
      as Hn.
    destruct (Js.or_else _ _) as [| |v]; try discriminate. eauto. }
  destruct Hv as [v Hv].
  exists v. split; [exact Hv|].
  unfold depthData. rewrite Hs, Hv.
  apply carryForward_repeats. intros m _.
  unfold byMonthMap. rewrite filter_none; [reflexivity|].
  eapply Forall_impl; [|exact Hno].
  intros d Hd. apply String.eqb_neq. exact Hd.
Qed.

(** A station without readings, in a response whose trend has rows of
    another station only. *)
Lemma depthData_without_trend_witness :
  exists v : Q,
    Js.or_else (selectedWaterTableDepth statsNoDepth
                  (Some "Village Well"%string)) (Js.Num 0) = Js.Num v
    /\ depthData statsNoDepth (Some "Village Well"%string) janFebTrend
       = map (fun m => (m, Js.Num v)) months.
Proof.
  apply (depthData_without_trend statsNoDepth "Village Well" janFebTrend).
  - reflexivity.
  - repeat constructor; discriminate.
Defined.

Lemma find_first {A : Type} (f : A -> bool) (l : list A) (x : A) :
  find f l = Some x ->
  exists l1 l2, l = l1 ++ x :: l2 /\ f x = true
                /\ forall y, In y l1 -> f y = false.
Proof.
  induction l as [|y l IH]; [discriminate|].
  cbn [find]. destruct (f y) eqn:E.
  - intros [= ->]. exists [], l. repeat split; [exact E|]. intros ? [].
  - intros H. destruct (IH H) as (l1 & l2 & -> & Hx & Hn).
    exists (y :: l1), l2. repeat split; [exact Hx|].
    intros z [<- | Hz]; [exact E | apply Hn, Hz].
Qed.

(** X6.  Looking up the selected station: the result is the first
    station of the response that bears the selected name; there is no
    result exactly when nothing is selected (no name or the empty name),
    the response has no station list, or no station bears the name. *)
Theorem selectedStationData_first_match (st : stats)
  (sel : option string) :
  match selectedStationData st sel with
  | Some s =>
      exists (n : string) (l1 l2 : list station),
        sel = Some n /\ n <> EmptyString
        /\ stations st = Some (l1 ++ s :: l2)
        /\ name s = n
        /\ (forall s', In s' l1 -> name s' <> n)
  | None =>
      sel = None \/ sel = Some EmptyString \/ stations st = None
      \/ exists (n : string) (l : list station),
           sel = Some n /\ stations st = Some l
           /\ forall s', In s' l -> name s' <> n
  end.
Proof.
  unfold selectedStationData.
  destruct sel as [n|]; [|left; reflexivity].
  destruct (String.eqb n EmptyString) eqn:En.
  - apply String.eqb_eq in En. subst n. right; left; reflexivity.
  - apply String.eqb_neq in En.
    destruct (stations st) as [l|]; [|right; right; left; reflexivity].
    destruct (find _ l) as [s|] eqn:F.
    + destruct (find_first _ _ _ F) as (l1 & l2 & -> & Hs & Hn).
      exists n, l1, l2. repeat split; try assumption.
      * apply String.eqb_eq. exact Hs.
      * intros s' Hin. apply String.eqb_neq. apply Hn, Hin.
    + right; right; right. exists n, l. repeat split.
      intros s' Hin. apply String.eqb_neq.
      apply (find_none _ _ F s' Hin).
Qed.

Lemma fallbackDepthTrend_row_inv (st : stats) (d : trend) :
  In d (fallbackDepthTrend st) ->
  In (month d) months
  /\ exists s, In s (topStations st)
               /\ trend_station d = name s
               /\ measure d = Js.Num (round1 (baseDepth st s)).
Proof.
  unfold fallbackDepthTrend. intros Hd.
  apply in_flat_map in Hd. destruct Hd as (m & Hm & Hd).
  apply in_map_iff in Hd. destruct Hd as (s & <- & Hs).
  cbn [month trend_station measure]. split; [exact Hm|].
  exists s. repeat split. exact Hs.
Qed.

Lemma fallbackDepthTrend_row_in (st : stats) (m : string) (s : station) :
  In m months -> In s (topStations st) ->
  In {| month := m; trend_station := name s;
        measure := Js.Num (round1 (baseDepth st s)) |}
     (fallbackDepthTrend st).
Proof.
  intros Hm Hs. unfold fallbackDepthTrend.
  apply in_flat_map. exists m. split; [exact Hm|].
  apply in_map_iff. exists s. split; [reflexivity | exact Hs].
Qed.

(** X7.  The trend generated for a response without [depth_trends] has
    twelve rows for each of the first six stations at most, one per month
    and station; the rows of a station all carry the same depth, its base
    depth (its aquifer depth, else the average aquifer depth, else 80)
    rounded to one decimal. *)
Theorem fallbackDepthTrend_rows (st : stats) :
  List.length (fallbackDepthTrend st)
  = (12 * List.length (topStations st))%nat
  /\ (List.length (topStations st) <= 6)%nat
  /\ Forall (fun d =>
               In (month d) months
               /\ exists s, In s (topStations st)
                            /\ trend_station d = name s
                            /\ measure d = Js.Num (round1 (baseDepth st s)))
            (fallbackDepthTrend st)
  /\ (forall m s, In m months -> In s (topStations st) ->
        In {| month := m; trend_station := name s;
              measure := Js.Num (round1 (baseDepth st s)) |}
           (fallbackDepthTrend st)).
Proof.
  unfold fallbackDepthTrend. repeat split.
  - rewrite (flat_map_constant_length (c := List.length (topStations st))).
    + reflexivity.
    + intros m _. apply length_map.
  - unfold topStations. destruct (stations st); [apply firstn_le_length|].
    cbn. lia.
  - apply Forall_forall. intros d Hd.
    apply (fallbackDepthTrend_row_inv st d Hd).
  - intros m s Hm Hs. apply fallbackDepthTrend_row_in; assumption.
Qed.

Lemma carryForward_constant (lookup : string -> Js.value)
  (last : Js.value) (ms : list string) (v : Q) :
  (forall m, In m ms -> lookup m = Js.Num v) ->
  carryForward lookup last ms = map (fun m => (m, Js.Num v)) ms.
Proof.
  revert last; induction ms as [|m ms IH]; intros last Hv; [reflexivity|].
  cbn [carryForward map]. rewrite (Hv m (or_introl eq_refl)).
  cbn [Js.eq_null]. rewrite IH; [reflexivity|].
  intros m' Hin. apply Hv. right; exact Hin.
Qed.

Lemma name_injective (l : list station) (s s' : station) :
  NoDup (map name l) -> In s l -> In s' l -> name s = name s' -> s = s'.
Proof.
  induction l as [|x l IH]; intros Hnd Hs Hs' Hn; [destruct Hs|].
  cbn [map] in Hnd. inversion Hnd as [|? ? Hx Hl]; subst.
  destruct Hs as [-> | Hs]; destruct Hs' as [-> | Hs'].
  - reflexivity.
  - exfalso. apply Hx. rewrite Hn. apply in_map. exact Hs'.
  - exfalso. apply Hx. rewrite <- Hn. apply in_map. exact Hs.
  - apply IH; assumption.
Qed.

(** X8.  In a response without [depth_trends], for a selected station
    among the first six whose name no other of them bears, every month of
    the chart shows the station's base depth rounded to one decimal: the
    aquifer depth stands in for the water table, and the default
    [selectedWaterTableDepth || 0] is not used. *)
Theorem depthData_fallback_flat (st : stats) (s : station) :
  In s (topStations st) ->
  NoDup (map name (topStations st)) ->
  String.eqb (name s) EmptyString = false ->
  depthData st (Some (name s)) (depthTrendData st None)
  = map (fun m => (m, Js.Num (round1 (baseDepth st s)))) months.
Proof.
  intros Hs Hnd Hne.
  unfold depthData, depthTrendData. rewrite Hne.
  apply carryForward_constant. intros m Hm.
  unfold byMonthMap.
  rewrite fold_left_last_match, <- filter_rev, find_filter_and.
  destruct (find _ (List.rev (fallbackDepthTrend st))) as [d|] eqn:F.
  - pose proof (find_some _ _ F) as [Hin Hd].
    apply in_rev in Hin. apply andb_true_iff in Hd.
    destruct Hd as [Hst _]. apply String.eqb_eq in Hst.
    destruct (fallbackDepthTrend_row_inv st d Hin)
      as (_ & s' & Hs' & Hn' & Hm').
    assert (s' = s) as ->.
    { apply (name_injective (topStations st)); try assumption.
      congruence. }
    exact Hm'.
  - exfalso.
    pose proof (find_none _ _ F _
                  (proj1 (in_rev _ _)
                     (fallbackDepthTrend_row_in st m s Hm Hs))) as Hf.
    cbn [trend_station month] in Hf.
    rewrite !String.eqb_refl in Hf. discriminate.
Qed.

Lemma depthData_fallback_flat_witness :
  depthData statsPlain (Some "Canal Gauge"%string)
    (depthTrendData statsPlain None)
  = map (fun m => (m, Js.Num (round1 (baseDepth statsPlain plainStation))))
        months.
Proof.
  apply (depthData_fallback_flat statsPlain plainStation).
  - left; reflexivity.
  - repeat constructor. intros [].
  - reflexivity.
Defined.

End RuralTrendFacts.

(** ** The pH row of a facility *)

Section ComplianceFacts.
Import Industrial.
Local Open Scope Q_scope.

(** X9.  A facility is shown as compliant exactly when its latest pH is
    missing or lies within [6.5, 8.5]; otherwise it is shown with exactly
    one violation. *)
Theorem isCompliant_iff (f : facility) :
  (isCompliant f = true
   <-> (Js.eq_null (facility_ph f) = true
        \/ exists ph : Q,
             facility_ph f = Js.Num ph /\ 6.5 <= ph /\ ph <= 8.5))
  /\ (isCompliant f = false <-> violationCount f = 1%nat).
Proof.
  unfold isCompliant, violationCount, buildViolations.
  cbn [filter status].
  destruct (facility_ph f) as [| |ph] eqn:Eph.
  - cbn. split; split; try discriminate; intros; auto.
  - cbn. split; split; try discriminate; intros; auto.
  - pose proof (getPhStatus_in_band ph) as Hband.
    destruct Hband as [Hc | Hin Hw | Hn].
    + cbn. split; split; try discriminate; try reflexivity.
      intros [Hnull | (ph' & [= <-] & H1 & H2)];
        [discriminate | exfalso; qlra].
    + cbn. split; split; try discriminate; try reflexivity.
      intros [Hnull | (ph' & [= <-] & H1 & H2)];
        [discriminate | exfalso; qlra].
    + cbn. split; split; try discriminate; try reflexivity.
      intros _. right. exists ph. repeat split; qlra.
Qed.

End ComplianceFacts.

(** ** The alert feed over repeated refreshes *)

Section FeedFacts.
Import AlertsFeed ReportsFeed.
Local Open Scope Z_scope.

Lemma sort_idempotent {A : Type} (key : A -> Z) (comparefn : A -> A -> Z)
  (Hkey : forall x y, (comparefn x y <=? 0) = (key y <=? key x))
  (l : list A) :
  sort comparefn (sort comparefn l) = sort comparefn l.
Proof.
  symmetry. apply (stable_sort_unique key comparefn Hkey).
  - apply (sort_sorted key comparefn Hkey).
  - intros t. reflexivity.
Qed.

(** X10.  Sorting is idempotent, and a response that is already in the
    order of the feed (most recent first) is shown exactly as it came,
    ties included. *)
Theorem sortedAlerts_idempotent :
  (forall alerts : option (list alert),
      sortedAlerts (Some (sortedAlerts alerts)) = sortedAlerts alerts)
  /\ (forall l : list alert,
        StronglySorted newer_first l -> sortedAlerts (Some l) = l).
Proof.
  split.
  - intros alerts. unfold sortedAlerts.
    apply (sort_idempotent timestamp byTimestampDesc byTimestampDesc_key).
  - intros l Hs. unfold sortedAlerts. symmetry.
    apply (stable_sort_unique timestamp byTimestampDesc
             byTimestampDesc_key).
    + exact Hs.
    + intros t. reflexivity.
Qed.

(** X11.  The first entry of a non-empty feed is a most recent alert, and
    among the alerts of that instant it is the one received first; an
    empty response gives an empty feed. *)
Theorem sortedAlerts_head (l : list alert) :
  match sortedAlerts (Some l) with
  | [] => l = []
  | a :: _ =>
      In a l
      /\ (forall b, In b l -> timestamp b <= timestamp a)
      /\ exists later, filter (at_time (timestamp a)) l = a :: later
  end.
Proof.
  pose proof (sort_perm byTimestampDesc l) as Hp.
  pose proof (sort_sorted timestamp byTimestampDesc byTimestampDesc_key l)
    as Hs.
  pose proof (sort_stable timestamp byTimestampDesc byTimestampDesc_key)
    as Hf.
  unfold sortedAlerts.
  destruct (sort byTimestampDesc l) as [|a rest] eqn:E.
  - apply Permutation_nil. exact Hp.
  - repeat split.
    + apply (Permutation_in a Hp). left; reflexivity.
    + intros b Hb.
      apply (Permutation_in b (Permutation_sym Hp)) in Hb.
      destruct Hb as [<- | Hb]; [lia|].
      apply StronglySorted_inv in Hs. destruct Hs as [_ Hall].
      rewrite Forall_forall in Hall. apply (Hall b Hb).
    + specialize (Hf (timestamp a) l). rewrite E in Hf.
      cbn [filter] in Hf.
      change ((fun a0 : alert => timestamp a0 =? timestamp a) a)
        with (timestamp a =? timestamp a) in Hf.
      rewrite Z.eqb_refl in Hf. eexists. symmetry. exact Hf.
Qed.

Lemma byCreatedDesc_key (a b : report) :
  (byCreatedDesc a b <=? 0) = (created_at b <=? created_at a).
Proof.
  unfold byCreatedDesc.
  destruct (created_at b <=? created_at a) eqn:E.
  - apply Z.leb_le in E. apply Z.leb_le. lia.
  - apply Z.leb_gt in E. apply Z.leb_gt. lia.
Qed.

(** X12.  The citizen reports are shown as a rearrangement of the reports
    received, most recently created first, reports created at the same
    instant in the order received; sorting them again changes nothing. *)
Theorem sortedReports_newest_first (l : list report) :
  Permutation (sortedReports (Some l)) l
  /\ StronglySorted (fun a b => created_at b <= created_at a)
                    (sortedReports (Some l))
  /\ (forall t : Z,
        filter (fun r => created_at r =? t) (sortedReports (Some l))
        = filter (fun r => created_at r =? t) l)
  /\ sortedReports (Some (sortedReports (Some l))) = sortedReports (Some l).
Proof.
  unfold sortedReports. repeat split.
  - apply sort_perm.
  - apply (sort_sorted created_at byCreatedDesc byCreatedDesc_key).
  - intros t. apply (sort_stable created_at byCreatedDesc byCreatedDesc_key).
  - apply (sort_idempotent created_at byCreatedDesc byCreatedDesc_key).
Qed.


End FeedFacts.

(** ** The map centre *)

Section MapCentreFacts.
Import Stats MapView.
Local Open Scope Q_scope.

(** X15.  With exactly one node shown, the map is centred on that node
    and zoomed in to level 13; with two or more it is zoomed to level
    11; with none, centre and zoom stay as they are. *)
Theorem autoCenter_zoom (filtered : list node) (v : view) :
  match filtered with
  | [] => autoCenter filtered v = v
  | [n] =>
      fst (center (autoCenter filtered v)) == latitude n
      /\ snd (center (autoCenter filtered v)) == longitude n
      /\ zoom (autoCenter filtered v) = 13%Z
  | _ :: _ :: _ => zoom (autoCenter filtered v) = 11%Z
  end.
Proof.
  destruct filtered as [|n [|n' rest]]; [reflexivity | | reflexivity].
  unfold autoCenter, avgLat, avgLng.
  cbn [List.length Nat.ltb Nat.leb Nat.eqb center zoom fst snd fold_left
       Z.of_nat Pos.of_succ_nat].
  repeat split; field.
Qed.

End MapCentreFacts.

(** ** The selected node across the refreshes *)

Section AppRefreshFacts.
Import MapView AdminApp.

Lemma run_snoc (events : list event) (e : event) :
  run (events ++ [e]) = handle (run events) e.
Proof. unfold run. rewrite fold_left_app. reflexivity. Qed.

(** X16.  The periodic refresh never touches the selected node.  After
    any sequence of clicks and refreshes the selected node is the record
    passed by the last click (none before the first click), and the node
    list is the answer of the last successful refresh: a refresh replaces
    the node list and leaves the selection as it is, also when its answer
    holds a newer record with the identifier of the selected node.  The
    [fetchData] of the current render would have replaced the record. *)
Theorem refresh_keeps_clicked_record (events : list event) :
  selectedNode (run events) = lastClick events
  /\ nodes (run events) = lastResponse events
  /\ (forall data : list node,
        selectedNode (run (events ++ [Response data]))
        = selectedNode (run events))
  /\ (let clicked := run [Response [downtown]; NodeClick downtown] in
      selectedNode (handle clicked (Response [downtownMoved]))
      = Some downtown
      /\ selectedNode
           (fetchData (selectedNode clicked) [downtownMoved] clicked)
         = Some downtownMoved
      /\ downtown <> downtownMoved).
Proof.
  assert (H : selectedNode (run events) = lastClick events
              /\ nodes (run events) = lastResponse events).
  { unfold run, lastClick, lastResponse.
    induction events as [|e events IH] using rev_ind; [split; reflexivity|].
    rewrite !fold_left_app. cbn [fold_left].
    destruct IH as [IHs IHn].
    destruct e as [n|data|];
      cbn [handle fetchData initial selectedNode nodes];
      split; assumption || reflexivity. }
  destruct H as [Hs Hn].
  split; [exact Hs|]. split; [exact Hn|]. split.
  - intros data. rewrite run_snoc. reflexivity.
  - cbv zeta. split; [reflexivity|]. split; [reflexivity|].
    intros E. discriminate E.
Qed.

End AppRefreshFacts.

(** ** Labels and colours of a report *)

Section ReportLabelFacts.
Import ReportLabels.

Lemma get_not_inherited (table : list (string * string)) (key : string) :
  ~ In key object_prototype_keys ->
  get table key = match own table key with
                  | Some v => Own v
                  | None => Absent
                  end.
Proof.
  intros Hk. unfold get. destruct (own table key); [reflexivity|].
  destruct (existsb (String.eqb key) object_prototype_keys) eqn:E;
    [|reflexivity].
  apply existsb_exists in E. destruct E as (k & Hin & Heq).
  apply String.eqb_eq in Heq. subst k. contradiction.
Qed.

Lemma own_miss (table : list (string * string)) (key : string) :
  ~ In key (map fst table) -> own table key = None.
Proof.
  induction table as [|[k v] table IH]; intros Hk; [reflexivity|].
  cbn [own]. destruct (String.eqb k key) eqn:E.
  - apply String.eqb_eq in E. exfalso. apply Hk. left. exact E.
  - apply IH. intros Hin. apply Hk. right. exact Hin.
Qed.

(** X19.  For every status and category that is not the name of a
    property inherited from [Object.prototype], the colour is one of the
    four classes of the table and the label one of the four labels or
    [Report]: a status outside the table gets the colour of [pending],
    a category outside the table the label [Report].  For an inherited
    name such as [constructor] the result is not a string at all. *)
Theorem report_lookups_fall_back (key : string) :
  (~ In key object_prototype_keys ->
   (exists cls, getStatusColor key = Own cls /\ In cls (map snd colors))
   /\ (~ In key (map fst colors) ->
       getStatusColor key
       = Own "bg-yellow-50 border-yellow-300 text-yellow-700")
   /\ (exists label, getCategoryLabel key = Own label
                     /\ In label ("Report"%string :: map snd labels))
   /\ (~ In key (map fst labels) -> getCategoryLabel key = Own "Report"))
  /\ (In key object_prototype_keys ->
      getStatusColor key = Inherited key
      /\ getCategoryLabel key = Inherited key).
Proof.
  split.
  - intros Hk. unfold getStatusColor, getCategoryLabel, get_or.
    rewrite !(get_not_inherited _ key Hk).
    repeat split.
    + cbn [colors own].
      repeat (destruct (String.eqb _ key);
              [eexists; split; [reflexivity | cbn; tauto]|]).
      eexists; split; [reflexivity | cbn; tauto].
    + intros Hn. rewrite (own_miss _ _ Hn). reflexivity.
    + cbn [labels own].
      repeat (destruct (String.eqb _ key);
              [eexists; split; [reflexivity | cbn; tauto]|]).
      eexists; split; [reflexivity | cbn; tauto].
    + intros Hn. rewrite (own_miss _ _ Hn). reflexivity.
  - intros Hk. cbn in Hk.
    repeat (destruct Hk as [<- | Hk]; [split; reflexivity|]).
    destruct Hk.
Qed.

End ReportLabelFacts.

(** ** The district chart *)

Section DistrictFacts.
Import UrbanDashboard.
Local Open Scope Q_scope.

Lemma Math_round_near (x : Q) :
  inject_Z (Math_round x) - (1 # 2) <= x
  /\ x < inject_Z (Math_round x) + (1 # 2).
Proof.
  unfold Math_round.
  pose proof (Qfloor_le (x + (1 # 2))) as Hlo.
  pose proof (Qlt_floor (x + (1 # 2))) as Hhi.
  rewrite inject_Z_plus in Hhi. change (inject_Z 1) with 1 in Hhi.
  split; qlra.
Qed.

Lemma Math_round_mono (x y : Q) : x <= y -> (Math_round x <= Math_round y)%Z.
Proof.
  intros H. unfold Math_round. apply Qfloor_resp_le. qlra.
Qed.

(** X20.  The district chart has one pair of bars per district, in the
    order of the entries.  The flow bar is the flow rounded to the
    nearest integer (0 for a missing flow); for a flow that is not
    negative the demand bar is never negative and never higher than the
    flow bar. *)
Theorem districtData_bars (districts : option (list (string * district))) :
  map bar_name (districtData districts)
  = map fst (match districts with Some e => e | None => [] end)
  /\ Forall (fun entry =>
               let f := flowOrZero (snd entry) in
               exists b, In b (districtData districts)
                 /\ bar_name b = fst entry
                 /\ inject_Z (bar_flow b) - (1 # 2) <= f
                 /\ f < inject_Z (bar_flow b) + (1 # 2)
                 /\ (0 <= f -> (0 <= bar_demand b <= bar_flow b)%Z)
                 /\ (Js.eq_null (flow (snd entry)) = true ->
                     bar_flow b = 0%Z /\ bar_demand b = 0%Z))
            (match districts with Some e => e | None => [] end).
Proof.
  unfold districtData. split.
  - rewrite map_map. reflexivity.
  - apply Forall_forall. intros entry Hin. cbv zeta.
    eexists. split; [apply in_map; exact Hin|].
    cbn [bar_name bar_flow bar_demand].
    destruct (Math_round_near (flowOrZero (snd entry))) as [Hlo Hhi].
    repeat split; try assumption.
    + change 0%Z with (Math_round 0). apply Math_round_mono. qlra.
    + apply Math_round_mono. qlra.
    + unfold flowOrZero, RuralTrends.truthy_or.
      destruct (flow (snd entry)); try discriminate; reflexivity.
    + unfold flowOrZero, RuralTrends.truthy_or.
      destruct (flow (snd entry)); try discriminate; reflexivity.
Qed.

(** X21.  The flow and pressure charts of the urban dashboard are empty
    without a selected node; for a selected node they have one row per
    month, January to December, each with a number: the value of the
    trend for a month that has one, else the last value before it, and
    the average of the response (0 without one) when the node has no
    trend row at all. *)
Theorem nodeData_rows (average : Js.value) (selectedNode : option string)
  (trendData : list Rural.trend) :
  match selectedNode with
  | None => flowData average selectedNode trendData = []
  | Some n =>
      if String.eqb n EmptyString
      then flowData average selectedNode trendData = []
      else
        map fst (flowData average selectedNode trendData) = Rural.months
        /\ Forall (fun row => exists q, snd row = Js.Num q)
                  (pressureData average selectedNode trendData)
        /\ (forall m q, In m Rural.months ->
                        Rural.byMonthMap trendData n m = Js.Num q ->
                        In (m, Js.Num q)
                           (flowData average selectedNode trendData))
        /\ (Forall (fun d => Rural.trend_station d <> n) trendData ->
            flowData average selectedNode trendData
            = map (fun m => (m, Js.Num (RuralTrends.truthy_or average 0)))
                  Rural.months)
  end.
Proof.
  destruct selectedNode as [n|]; [|reflexivity].
  unfold flowData, pressureData, nodeData.
  destruct (String.eqb n EmptyString); [reflexivity|].
  split; [|split; [|split]].
  - apply carryForward_months.
  - eapply Forall_impl; [|apply carryForward_numbers; reflexivity].
    intros [m v] Hv. cbn [snd] in *.
    destruct v as [| |q]; try discriminate. exists q; reflexivity.
  - intros m q Hm Hq. rewrite <- Hq.
    apply carryForward_own; [exact Hm|]. rewrite Hq. reflexivity.
  - intros Hno. apply carryForward_repeats. intros m _.
    unfold Rural.byMonthMap. rewrite filter_none; [reflexivity|].
    eapply Forall_impl; [|exact Hno].
    intros d Hd. apply String.eqb_neq. exact Hd.
Qed.

End DistrictFacts.

(** ** The chart data of a render *)

Section StationDataFacts.
Import Stats Rural RuralTrends StationData.
Local Open Scope Q_scope.

Lemma present_numbers (rows : list (string * Js.value)) :
  Forall (fun row => Js.eq_null (snd row) = false) rows ->
  List.length (present (map snd rows)) = List.length rows.
Proof.
  induction 1 as [|[m v] rows Hv _ IH]; [reflexivity|].
  cbn [snd] in Hv. destruct v as [| |q]; try discriminate.
  cbn [map snd present List.length]. rewrite IH. reflexivity.
Qed.

Lemma numbers_are_present (rows : list (string * Js.value)) :
  Forall (fun row => Js.eq_null (snd row) = false) rows ->
  Forall (fun row => exists q, snd row = Js.Num q) rows.
Proof.
  intros H. eapply Forall_impl; [|exact H].
  intros [m v] Hv. cbn [snd] in *.
  destruct v as [| |q]; try discriminate. exists q; reflexivity.
Qed.

Lemma getStationData_depth (st : stats) (sel : option string)
  (depthTrend rechargeTrend : list trend) :
  fst (getStationData st sel depthTrend rechargeTrend)
  = depthData st sel depthTrend.
Proof.
  unfold getStationData, depthData.
  destruct sel as [s|]; [|reflexivity].
  destruct (String.eqb s EmptyString); reflexivity.
Qed.

(** X22.  Computing the chart data fails (a TypeError in the grouping of
    the recharge trend) exactly when the response has depth trends but no
    recharge trends, whether or not a station is selected.  In every
    other case both series are returned: empty without a selection, and
    with twelve rows each, January to December, every row with a number,
    for a selected station. *)
Theorem chartData_result (st : stats) (sel : option string)
  (depth_trends recharge_trends : option (list trend)) :
  match chartData st sel depth_trends recharge_trends with
  | None =>
      (exists d l, depth_trends = Some (d :: l)) /\ recharge_trends = None
  | Some (_, _, (depthRows, rechargeRows)) =>
      ~ ((exists d l, depth_trends = Some (d :: l))
         /\ recharge_trends = None)
      /\ if selected sel
         then map fst depthRows = months /\ map fst rechargeRows = months
              /\ Forall (fun row => exists q, snd row = Js.Num q)
                        (depthRows ++ rechargeRows)
         else depthRows = [] /\ rechargeRows = []
  end.
Proof.
  unfold chartData.
  destruct (rechargeTrendData st depth_trends recharge_trends)
    as [rt|] eqn:Er.
  - unfold getStationData, selected.
    destruct sel as [s|].
    2:{ cbv beta iota. split; [|split; reflexivity].
        intros ((d & l & ->) & ->). cbn in Er. discriminate. }
    destruct (String.eqb s EmptyString) eqn:Es.
    { cbv beta iota. cbn [negb]. split; [|split; reflexivity].
      intros ((d & l & ->) & ->). cbn in Er. discriminate. }
    cbv beta iota. cbn [negb]. split.
    { intros ((d & l & ->) & ->). cbn in Er. discriminate. }
    destruct (depthData_selected st s (depthTrendData st depth_trends) Es)
      as (Hm & _ & Hn).
    split; [exact Hm|]. split; [apply carryForward_months|].
    apply Forall_app. split; [exact Hn|].
    apply numbers_are_present, carryForward_numbers. reflexivity.
  - unfold rechargeTrendData in Er.
    destruct depth_trends as [[|d l]|]; try discriminate.
    split; [eauto | exact Er].
Qed.

(** X23.  Whenever the chart data of a render is computed, the
    water-table card is blank ([null], shown as [--]) exactly when no
    station is selected: for a selected station it always shows a number,
    whatever the trend data. *)
Theorem displayWaterTableDepth_blank_iff (st : stats) (sel : option string)
  (depth_trends recharge_trends : option (list trend))
  (depthRows rechargeRows : series)
  (depthByMonth rechargeByMonth : list (string * list (string * Js.value))) :
  chartData st sel depth_trends recharge_trends
  = Some (depthByMonth, rechargeByMonth, (depthRows, rechargeRows)) ->
  (displayWaterTableDepth sel depthRows = Js.Null <-> selected sel = false)
  /\ (selected sel = true ->
      exists a : Q, displayWaterTableDepth sel depthRows = Js.Num a).
Proof.
  unfold chartData.
  destruct (rechargeTrendData _ _ _) as [rt|]; [|discriminate].
  intros [= _ _ Hg].
  assert (Hd : depthRows = depthData st sel (depthTrendData st depth_trends)).
  { rewrite <- getStationData_depth with (rechargeTrend := rt).
    rewrite Hg. reflexivity. }
  subst depthRows. clear Hg.
  unfold displayWaterTableDepth, selected.
  destruct sel as [s|]; [|split; [split; reflexivity | discriminate]].
  destruct (String.eqb s EmptyString) eqn:Es;
    [split; [split; reflexivity | discriminate]|].
  cbn [negb].
  destruct (depthData_selected st s (depthTrendData st depth_trends) Es)
    as (_ & Hlen & _).
  pose proof (present_numbers _
                (depthData_numbers st (Some s)
                   (depthTrendData st depth_trends))) as Hp.
  rewrite Hlen in Hp.
  assert (Hne : present (map snd (depthData st (Some s)
                                    (depthTrendData st depth_trends)))
                <> []).
  { intros E. rewrite E in Hp. discriminate. }
  unfold avgDepthSelected. rewrite (avgSelected_nonempty _ Hne).
  split; [split; discriminate|]. intros _. eexists. reflexivity.
Qed.

(** The station of [statsPlain] with the sparse trend of two months and
    an empty recharge trend. *)
Lemma displayWaterTableDepth_blank_iff_witness :
  (displayWaterTableDepth (Some "Canal Gauge"%string)
     (depthData statsPlain (Some "Canal Gauge"%string) sparseTrend)
   = Js.Null
   <-> selected (Some "Canal Gauge"%string) = false)
  /\ (selected (Some "Canal Gauge"%string) = true ->
      exists a : Q,
        displayWaterTableDepth (Some "Canal Gauge"%string)
          (depthData statsPlain (Some "Canal Gauge"%string) sparseTrend)
        = Js.Num a).
Proof.
  apply (displayWaterTableDepth_blank_iff statsPlain
           (Some "Canal Gauge"%string) (Some sparseTrend) (Some [])
           (depthData statsPlain (Some "Canal Gauge"%string) sparseTrend)
           (carryForward (byMonthMap [] "Canal Gauge")
              (Js.Num (truthy_or (avg_recharge_rate statsPlain) 0))
              months)
           (byMonth sparseTrend) (byMonth [])).
  reflexivity.
Defined.

End StationDataFacts.

(** ** C4: the averages of the selected station *)

Section RuralAverageClaims.
Import Stats Rural RuralTrends StationData RuralAverages.
Local Open Scope Q_scope.

Lemma present_all (rows : list (string * Js.value)) :
  Forall (fun row => Js.eq_null (snd row) = false) rows ->
  map Js.Num (present (map snd rows)) = map snd rows.
Proof.
  induction 1 as [|[m v] rows Hv _ IH]; [reflexivity|].
  cbn [snd] in Hv. destruct v as [| |q]; try discriminate.
  cbn [map snd present]. rewrite IH. reflexivity.
Qed.

Lemma carryForward_carried (lookup : string -> Js.value)
  (last : Js.value) (ms : list string) :
  carried_forward lookup last ms (carryForward lookup last ms).
Proof.
  unfold carried_forward.
  revert last; induction ms as [|m0 ms IH]; intros last i m Hi.
  - destruct i; discriminate Hi.
  - destruct i as [|j].
    + cbn [nth_error] in Hi. injection Hi as <-.
      cbn [carryForward nth_error].
      eexists. split; [reflexivity|].
      split; intros E; rewrite E; reflexivity.
    + cbn [nth_error] in Hi. cbn [carryForward nth_error].
      destruct (IH (if Js.eq_null (lookup m0) then last else lookup m0)
                   j m Hi) as (v & Hv & Hown & Hrep).
      exists v. split; [exact Hv|]. split; [exact Hown|].
      intros E. specialize (Hrep E).
      destruct j as [|k].
      * exists m0. cbn [nth_error]. rewrite Hrep. reflexivity.
      * cbn [nth_error]. exact Hrep.
Qed.

Lemma avgSelected_twelve (rows : list (string * Js.value)) :
  List.length (present (map snd rows)) = 12%nat ->
  avgSelected rows = Js.Num (reduce_sum (present (map snd rows)) / 12).
Proof.
  intros H. unfold avgSelected, count. cbv zeta. rewrite H. reflexivity.
Qed.

(** C4, as the claim has it: the displayed average against the mean of
    the readings that are present.  With the readings 40 (January) and
    50 (February) the mean of the present readings is that of 40 and 50,
    but the average shown runs over 40 and eleven times 50 and lies
    between 49 and 50; with the single reading 7 (March) and no known
    depth, January and February count as 0 and the average lies between
    5 and 6; and without any reading and without known depth the average
    is 0, not [null]. *)
Lemma avgDepthSelected_fills_missing_months :
  (present (map snd (monthlyReadings janFebTrend "Canal Gauge")) = [40; 50]
   /\ exists m : Q,
        avgDepthSelected
          (depthData statsPlain (Some "Canal Gauge"%string)
             (depthTrendData statsPlain (Some janFebTrend)))
        = Js.Num m
        /\ 49 < m /\ m < 50)
  /\ (present (map snd (monthlyReadings sparseTrend "Village Well")) = [7]
      /\ exists m : Q,
           avgDepthSelected
             (depthData statsNoDepth (Some "Village Well"%string)
                (depthTrendData statsNoDepth (Some sparseTrend)))
           = Js.Num m
           /\ 5 < m /\ m < 6)
  /\ (present (map snd (monthlyReadings janFebTrend "Village Well")) = []
      /\ exists m : Q,
           avgDepthSelected
             (depthData statsNoDepth (Some "Village Well"%string)
                (depthTrendData statsNoDepth (Some janFebTrend)))
           = Js.Num m
           /\ m == 0).
Proof.
  split; [|split]; (split; [reflexivity|]);
    eexists; (split; [reflexivity|]); vm_compute; auto.
Qed.

(** C4 (amended).  Whenever the chart data of a render is computed, the
    two averages of the selected station run over the twelve monthly rows
    of [getStationData], none of which is [null]: the filter
    [v != null] removes nothing, and each average is the sum of its
    twelve values divided by 12.  A month without a reading is not left
    out: it takes the value of the month before it, and January the
    default ([selectedWaterTableDepth || 0] for the depth,
    [avg_recharge_rate || 0] for the recharge).  The averages are [null]
    exactly when no station is selected. *)
Theorem station_averages_over_filled_months (st : stats)
  (sel : option string)
  (depth_trends recharge_trends : option (list trend))
  (depthRows rechargeRows : series)
  (depthByMonth rechargeByMonth : list (string * list (string * Js.value))) :
  chartData st sel depth_trends recharge_trends
  = Some (depthByMonth, rechargeByMonth, (depthRows, rechargeRows)) ->
  (map Js.Num (present (map snd depthRows)) = map snd depthRows
   /\ map Js.Num (present (map snd rechargeRows)) = map snd rechargeRows)
  /\ ((avgDepthSelected depthRows = Js.Null <-> selected sel = false)
      /\ (avgRechargeSelected rechargeRows = Js.Null
          <-> selected sel = false))
  /\ (selected sel = true ->
      List.length (present (map snd depthRows)) = 12%nat
      /\ List.length (present (map snd rechargeRows)) = 12%nat
      /\ avgDepthSelected depthRows
         = Js.Num (reduce_sum (present (map snd depthRows)) / 12)
      /\ avgRechargeSelected rechargeRows
         = Js.Num (reduce_sum (present (map snd rechargeRows)) / 12))
  /\ (forall s : string,
        sel = Some s -> selected sel = true ->
        carried_forward (byMonthMap (depthTrendData st depth_trends) s)
          (Js.or_else (selectedWaterTableDepth st sel) (Js.Num 0))
          months depthRows
        /\ exists rechargeTrend : list trend,
             rechargeTrendData st depth_trends recharge_trends
             = Some rechargeTrend
             /\ carried_forward (byMonthMap rechargeTrend s)
                  (Js.Num (truthy_or (avg_recharge_rate st) 0))
                  months rechargeRows).
Proof.
  unfold chartData.
  destruct (rechargeTrendData _ _ _) as [rt|]; [|discriminate].
  intros [= _ _ Hg].
  assert (Hd : depthRows
               = fst (getStationData st sel (depthTrendData st depth_trends)
                        rt))
    by (rewrite Hg; reflexivity).
  assert (Hr : rechargeRows
               = snd (getStationData st sel (depthTrendData st depth_trends)
                        rt))
    by (rewrite Hg; reflexivity).
  clear Hg. subst depthRows rechargeRows.
  unfold getStationData, selected.
  destruct sel as [s|].
  2:{ cbn [fst snd].
      repeat split; try reflexivity; try discriminate. }
  destruct (String.eqb s EmptyString) eqn:Es.
  { cbn [fst snd negb].
    repeat split; try reflexivity; try discriminate. }
  cbn [fst snd negb].
  set (dRows := depthData st (Some s) (depthTrendData st depth_trends)).
  set (rRows := carryForward (byMonthMap rt s)
                  (Js.Num (truthy_or (avg_recharge_rate st) 0)) months).
  assert (Hdn : Forall (fun row => Js.eq_null (snd row) = false) dRows)
    by apply depthData_numbers.
  assert (Hrn : Forall (fun row => Js.eq_null (snd row) = false) rRows)
    by (apply carryForward_numbers; reflexivity).
  assert (Hdl : List.length (present (map snd dRows)) = 12%nat).
  { rewrite (present_numbers _ Hdn).
    apply (depthData_selected st s _ Es). }
  assert (Hrl : List.length (present (map snd rRows)) = 12%nat).
  { rewrite (present_numbers _ Hrn).
    rewrite <- (length_map fst). unfold rRows.
    rewrite carryForward_months. reflexivity. }
  split; [split; apply present_all; assumption|].
  split.
  { unfold avgDepthSelected, avgRechargeSelected.
    rewrite (avgSelected_twelve _ Hdl), (avgSelected_twelve _ Hrl).
    repeat split; discriminate. }
  split.
  { intros _. repeat split; try assumption;
      apply avgSelected_twelve; assumption. }
  intros s' [= <-] _. split.
  - unfold dRows, depthData. rewrite Es. apply carryForward_carried.
  - exists rt. split; [reflexivity|]. apply carryForward_carried.
Qed.

(** The station of [statsPlain] with the readings of January and
    February and an empty recharge trend. *)
Lemma station_averages_over_filled_months_witness :
  exists depthRows rechargeRows : series,
    chartData statsPlain (Some "Canal Gauge"%string) (Some janFebTrend)
      (Some [])
    = Some (byMonth janFebTrend, byMonth [], (depthRows, rechargeRows))
    /\ map snd depthRows
       = map Js.Num [40; 50; 50; 50; 50; 50; 50; 50; 50; 50; 50; 50]
    /\ map Js.Num (present (map snd depthRows)) = map snd depthRows
    /\ List.length (present (map snd depthRows)) = 12%nat
    /\ avgDepthSelected depthRows
       = Js.Num (reduce_sum (present (map snd depthRows)) / 12).
Proof.
  eexists. eexists. split; [reflexivity|]. split; [reflexivity|].
  destruct (station_averages_over_filled_months statsPlain
              (Some "Canal Gauge"%string) (Some janFebTrend) (Some [])
              _ _ _ _ eq_refl)
    as ((Hp & _) & _ & Hsel & _).
  destruct (Hsel eq_refl) as (Hl & _ & Ha & _).
  split; [exact Hp|]. split; [exact Hl | exact Ha].
Defined.

End RuralAverageClaims.
